(** * notebooks/project_imports.py: a shallow embedding

    The module is a handful of notebook helpers written on top of pandas
    and pathlib.  The helpers themselves ([DirectoryMapper],
    [create_date_parts], [groupby_and_agg]) are transcribed statement by
    statement; the library calls they make ([Path./], [df.groupby().agg()],
    [reset_index], [df[...]], ...) are given an executable model of the
    fragment the helpers exercise, so that every definition below can be
    run on concrete tables. *)

From Stdlib Require Import ZArith Lia Ascii String SpecFloat.
From stdpp Require Import base option list strings gmap.

Local Open Scope Z_scope.
Local Open Scope list_scope.

(** ** Python outcomes *)

(** The exceptions the helpers or the library calls can raise.  A
    [ValueError] keeps its message: [load_data] raises two of them, told
    apart by the text only.  [NotModelled] is no Python exception: it marks
    the few library behaviours left outside the fragment modelled here. *)
Inductive exn :=
| ValueError (msg : string)
| KeyError
| TypeError
| IndexError
| AttributeError
| AssertionError
| NotModelled.

Inductive result (A : Type) :=
| Ok (a : A)
| Raise (e : exn).
Arguments Ok {A} a.
Arguments Raise {A} e.

Definition rbind {A B} (r : result A) (k : A -> result B) : result B :=
  match r with
  | Ok a => k a
  | Raise e => Raise e
  end.

Declare Scope py_scope.
Delimit Scope py_scope with py.
Notation "x <- c1 ;; c2" := (rbind c1 (fun x => c2))
  (at level 100, c1 at next level, right associativity) : py_scope.

(** Running a list of fallible steps left to right, as a [for] loop or a
    list comprehension does. *)
Fixpoint rmap {A B} (f : A -> result B) (l : list A) : result (list B) :=
  match l with
  | [] => Ok []
  | x :: l' =>
      match f x with
      | Raise e => Raise e
      | Ok y =>
          match rmap f l' with
          | Raise e => Raise e
          | Ok ys => Ok (y :: ys)
          end
      end
  end.

(** ** Python strings *)

(** [sep.join(items)] *)
Fixpoint str_join (sep : string) (items : list string) : string :=
  match items with
  | [] => ""
  | [x] => x
  | x :: rest => x +:+ sep +:+ str_join sep rest
  end.

(** [s.endswith(suffix)] *)
Definition endswith (s suffix : string) : bool :=
  let n := String.length s in
  let k := String.length suffix in
  if (k <=? n)%nat
  then String.eqb (String.substring (n - k) k s) suffix
  else false.

(** [s.removesuffix(suffix)]: the string without [suffix] when it is
    non-empty and [s] ends with it, [s] itself otherwise. *)
Definition removesuffix (s suffix : string) : string :=
  if negb (String.eqb suffix "") && endswith s suffix
  then String.substring 0 (String.length s - String.length suffix) s
  else s.

(** [s.split(sep)] for a one-character separator. *)
Fixpoint split_on (sep : ascii) (s : string) : list string :=
  match s with
  | EmptyString => [EmptyString]
  | String c s' =>
      if Ascii.eqb c sep then EmptyString :: split_on sep s'
      else match split_on sep s' with
           | [] => [String c EmptyString]
           | w :: ws => String c w :: ws
           end
  end.

(** ** pathlib: pure POSIX paths *)

(** A [PurePosixPath] is its root (empty, one slash, or two slashes) and the
    components after it. *)
Record Path := mkPath { root : string; parts : list string }.

Fixpoint leading_slashes (s : string) : nat :=
  match s with
  | String c s' => if Ascii.eqb c "/" then S (leading_slashes s') else O
  | EmptyString => O
  end.

(** Parsing a string as a path: exactly two leading slashes are kept as a
    root of their own, any other positive number is one slash; empty and
    single-dot components are dropped. *)
Definition parse_root (s : string) : string :=
  match leading_slashes s with
  | O => ""
  | 2%nat => "//"
  | _ => "/"
  end.

Definition parse_parts (s : string) : list string :=
  List.filter (fun c => negb (String.eqb c "" || String.eqb c "."))
              (split_on "/" s).

Definition PurePath (s : string) : Path :=
  mkPath (parse_root s) (parse_parts s).

(** [p / s]: a rooted right operand replaces the left one, a relative one
    is appended to it. *)
Definition path_join (p : Path) (s : string) : Path :=
  if String.eqb (parse_root s) ""
  then mkPath (root p) (parts p ++ parse_parts s)
  else PurePath s.

Notation "p // s" := (path_join p s) (at level 40, left associativity).

(** [str(p)] *)
Definition path_str (p : Path) : string :=
  match root p, parts p with
  | EmptyString, [] => "."
  | r, ps => r +:+ str_join "/" ps
  end.


(** ** pandas: values, columns and frames *)

(** float64 is IEEE 754 binary64, computed with the Standard Library's
    executable specification of floats. *)
Definition float64 := spec_float.
Definition f64_add : float64 -> float64 -> float64 := SFadd 53 1024.
Definition f64_sub : float64 -> float64 -> float64 := SFsub 53 1024.
Definition f64_div : float64 -> float64 -> float64 := SFdiv 53 1024.
Definition f64_of_Z (z : Z) : float64 := binary_normalize 53 1024 z 0 false.
Definition f64_zero : float64 := S754_zero false.
Definition f64_isnan (x : float64) : bool :=
  match x with S754_nan => true | _ => false end.

(** int64 arithmetic wraps around. *)
Definition wrap64 (z : Z) : Z := (z + 2 ^ 63) mod 2 ^ 64 - 2 ^ 63.

Record Timestamp := mkTimestamp { ts_year : Z; ts_month : Z; ts_day : Z }.

(** A column holds values of one type: integers (whatever their width;
    sums are taken at 64 bits), floats, strings or dates.  Missing
    integers, strings and dates are outside the model, a missing float is
    NaN. *)
Inductive Series :=
| SInt (l : list Z)
| SFloat (l : list float64)
| SStr (l : list string)
| SDatetime (l : list Timestamp).

Definition series_len (s : Series) : nat :=
  match s with
  | SInt l => length l
  | SFloat l => length l
  | SStr l => length l
  | SDatetime l => length l
  end.

Inductive value :=
| VInt (z : Z)
| VFloat (x : float64)
| VStr (s : string)
| VDatetime (t : Timestamp).

Definition series_get (s : Series) (i : nat) : option value :=
  match s with
  | SInt l => VInt <$> l !! i
  | SFloat l => VFloat <$> l !! i
  | SStr l => VStr <$> l !! i
  | SDatetime l => VDatetime <$> l !! i
  end.

(** The rows of [l] at the given positions, in that order. *)
Definition take_rows {A} (pos : list nat) (l : list A) : list A :=
  omap (fun i => l !! i) pos.

Definition series_take (pos : list nat) (s : Series) : Series :=
  match s with
  | SInt l => SInt (take_rows pos l)
  | SFloat l => SFloat (take_rows pos l)
  | SStr l => SStr (take_rows pos l)
  | SDatetime l => SDatetime (take_rows pos l)
  end.

(** Column labels: a flat [Index] of names, or a two-level [MultiIndex] of
    (name, function) tuples. *)
Inductive Columns :=
| Index (names : list string)
| MultiIndex (tuples : list (string * string)).

(** Row labels: the default [RangeIndex], or the group keys a grouped
    aggregation leaves there (one named level per grouping column). *)
Inductive RowIndex :=
| RangeIndex (n : nat)
| KeyIndex (names : list string) (levels : list Series).

Record DataFrame := mkDataFrame {
  index : RowIndex;
  columns : Columns;
  data : list Series
}.

Definition set_columns (df : DataFrame) (c : Columns) : DataFrame :=
  mkDataFrame (index df) c (data df).

Definition nrows (df : DataFrame) : nat :=
  match index df with
  | RangeIndex n => n
  | KeyIndex _ levels =>
      match levels with
      | [] => O
      | s :: _ => series_len s
      end
  end.

(** A key of [df[...]]: a name or a tuple. *)
Inductive label :=
| LStr (s : string)
| LTup (a b : string).

(** [list(df.columns)] *)
Definition columns_list (c : Columns) : list label :=
  match c with
  | Index l => List.map LStr l
  | MultiIndex l => List.map (fun t => LTup (fst t) (snd t)) l
  end.

(** [name in df.columns]: on a [MultiIndex] a plain name is looked up in
    the first level. *)
Definition in_columns (name : string) (c : Columns) : bool :=
  match c with
  | Index l => existsb (String.eqb name) l
  | MultiIndex l => existsb (fun t => String.eqb name (fst t)) l
  end.

(** The series stored under the labels satisfying [p], in column order. *)
Fixpoint select {L} (p : L -> bool) (labels : list L) (cols : list Series)
  : list (L * Series) :=
  match labels, cols with
  | l :: labels', s :: cols' =>
      if p l then (l, s) :: select p labels' cols' else select p labels' cols'
  | _, _ => []
  end.

(** Which columns a key designates: on flat columns the one of that name,
    on a [MultiIndex] the columns whose first level is the name, or the
    one column that is the tuple. *)
Definition label_matches_flat (k : label) (name : string) : bool :=
  match k with
  | LStr s => String.eqb s name
  | LTup _ _ => false
  end.

Definition label_matches_multi (k : label) (t : string * string) : bool :=
  match k with
  | LStr s => String.eqb s (fst t)
  | LTup a b => String.eqb a (fst t) && String.eqb b (snd t)
  end.

Definition pick {L} (p : label -> L -> bool) (labels : list L)
    (cols : list Series) (k : label) : result (list (L * Series)) :=
  match select (p k) labels cols with
  | [] => Raise KeyError
  | found => Ok found
  end.

(** [df[keys]] with a list of keys: for every key in turn, all the columns
    it designates; [KeyError] when a key designates none.  The result keeps
    the kind of column index it was taken from. *)
Definition getitem_list (df : DataFrame) (keys : list label) : result DataFrame :=
  match columns df with
  | Index names =>
      (found <- rmap (pick label_matches_flat names (data df)) keys ;;
       let sel := concat found in
       Ok (mkDataFrame (index df) (Index (List.map fst sel)) (List.map snd sel)))%py
  | MultiIndex tuples =>
      (found <- rmap (pick label_matches_multi tuples (data df)) keys ;;
       let sel := concat found in
       Ok (mkDataFrame (index df) (MultiIndex (List.map fst sel)) (List.map snd sel)))%py
  end.

(** [df[name]] with one name: the column when exactly one carries the
    name, a frame of all of them when several do.  On two-level columns
    the name is a first level: the result is the frame of the columns
    below it, labelled by their second level, or the column itself when
    there is one and its second level is empty. *)
Inductive PdObj :=
| ObjSeries (s : Series)
| ObjFrame (df : DataFrame).

Definition getitem_str (df : DataFrame) (name : string) : result PdObj :=
  match columns df with
  | Index names =>
      match select (String.eqb name) names (data df) with
      | [] => Raise KeyError
      | [(_, s)] => Ok (ObjSeries s)
      | found =>
          Ok (ObjFrame (mkDataFrame (index df) (Index (List.map fst found))
                                    (List.map snd found)))
      end
  | MultiIndex tuples =>
      match select (fun t => String.eqb name (fst t)) tuples (data df) with
      | [] => Raise KeyError
      | found =>
          let below := mkDataFrame (index df) (Index (List.map (fun f => snd (fst f)) found))
                                   (List.map snd found) in
          match found with
          | [(t, s)] => if String.eqb (snd t) "" then Ok (ObjSeries s) else Ok (ObjFrame below)
          | _ => Ok (ObjFrame below)
          end
      end
  end.

(** [df[name] = s] on flat columns: every column called [name] takes the
    new values, and when there is none the series becomes the last
    column. *)
Fixpoint replace_cols (name : string) (s : Series) (names : list string)
    (cols : list Series) : list Series :=
  match names, cols with
  | n :: names', c :: cols' =>
      (if String.eqb n name then s else c) :: replace_cols name s names' cols'
  | _, _ => cols
  end.

Definition setitem (df : DataFrame) (name : string) (s : Series) : result DataFrame :=
  match columns df with
  | Index names =>
      if in_columns name (Index names)
      then Ok (mkDataFrame (index df) (Index names)
                           (replace_cols name s names (data df)))
      else Ok (mkDataFrame (index df) (Index (names ++ [name])) (data df ++ [s]))
  | MultiIndex _ => Raise NotModelled
  end.

(** [df.drop(labels, axis=1)]: every column designated by a listed label
    goes; a listed label that designates no column is a [KeyError]. *)
Definition drop_columns (df : DataFrame) (labels : list label) : result DataFrame :=
  match columns df with
  | Index names =>
      if forallb (fun k => existsb (label_matches_flat k) names) labels
      then
        let kept := select (fun n => negb (existsb (fun k => label_matches_flat k n) labels))
                           names (data df) in
        Ok (mkDataFrame (index df) (Index (List.map fst kept)) (List.map snd kept))
      else Raise KeyError
  | MultiIndex tuples =>
      if forallb (fun k => existsb (label_matches_multi k) tuples) labels
      then
        let kept := select (fun t => negb (existsb (fun k => label_matches_multi k t) labels))
                           tuples (data df) in
        Ok (mkDataFrame (index df) (MultiIndex (List.map fst kept)) (List.map snd kept))
      else Raise KeyError
  end.

(** [df.select_dtypes(include=['datetime64']).columns] *)
Definition is_datetime (s : Series) : bool :=
  match s with SDatetime _ => true | _ => false end.

Fixpoint datetime_labels (labels : list label) (cols : list Series) : list label :=
  match labels, cols with
  | l :: labels', s :: cols' =>
      if is_datetime s then l :: datetime_labels labels' cols'
      else datetime_labels labels' cols'
  | _, _ => []
  end.

(** [f'{c}'] for a column label: a name as it is, a tuple as Python
    prints it. *)
Definition format_label (c : label) : string :=
  match c with
  | LStr s => s
  | LTup a b => "('" +:+ a +:+ "', '" +:+ b +:+ "')"
  end.

(** [.dt.year] and [.dt.month]: defined on a datetime series only. *)
Definition dt_year (o : PdObj) : result Series :=
  match o with
  | ObjSeries (SDatetime l) => Ok (SInt (List.map ts_year l))
  | _ => Raise AttributeError
  end.

Definition dt_month (o : PdObj) : result Series :=
  match o with
  | ObjSeries (SDatetime l) => Ok (SInt (List.map ts_month l))
  | _ => Raise AttributeError
  end.

(** ** create_date_parts (lines 106-140) *)

(** The inner loop, [for d in ['YEAR', 'MONTH']], on the column [c]. *)
Fixpoint date_parts_of (c : label) (ds : list string) (df : DataFrame)
  : result DataFrame :=
  match ds with
  | [] => Ok df
  | d :: ds' =>
      (df' <- (if String.eqb d "YEAR" then
                 col <- getitem_str df (format_label c) ;;
                 part <- dt_year col ;;
                 setitem df (format_label c +:+ "_" +:+ d) part
               else if String.eqb d "MONTH" then
                 col <- getitem_str df (format_label c) ;;
                 part <- dt_month col ;;
                 setitem df (format_label c +:+ "_" +:+ d) part
               else Ok df) ;;
       date_parts_of c ds' df')%py
  end.

(** The outer loop, [for c in date_cols]. *)
Fixpoint date_parts_loop (date_cols : list label) (df : DataFrame)
  : result DataFrame :=
  match date_cols with
  | [] => Ok df
  | c :: rest =>
      (df' <- date_parts_of c ["YEAR"; "MONTH"] df ;;
       date_parts_loop rest df')%py
  end.

(** The frame is updated in place and handed back; the embedding returns
    the updated frame. *)
Definition create_date_parts (df : DataFrame) (drop_date_cols : bool)
  : result DataFrame :=
  let date_cols := datetime_labels (columns_list (columns df)) (data df) in
  (df <- date_parts_loop date_cols df ;;
   if drop_date_cols then drop_columns df date_cols else Ok df)%py.

Definition sample_dates : DataFrame :=
  mkDataFrame (RangeIndex 2) (Index ["id"; "d"])
    [SInt [1; 2];
     SDatetime [mkTimestamp 2018 2 1; mkTimestamp 2017 12 31]].

(** ** pandas: grouped aggregation *)

(** *** Ordering the group keys *)

Definition ts_compare (a b : Timestamp) : comparison :=
  match ts_year a ?= ts_year b with
  | Eq => match ts_month a ?= ts_month b with
          | Eq => ts_day a ?= ts_day b
          | c => c
          end
  | c => c
  end.

Definition f64_compare (x y : float64) : comparison :=
  match SFcompare x y with
  | Some c => c
  | None => Eq
  end.

(** The values of one column share a type, so only the diagonal matters. *)
Definition value_compare (a b : value) : comparison :=
  match a, b with
  | VInt x, VInt y => x ?= y
  | VFloat x, VFloat y => f64_compare x y
  | VStr x, VStr y => String.compare x y
  | VDatetime x, VDatetime y => ts_compare x y
  | _, _ => Eq
  end.

Fixpoint key_compare (a b : list value) : comparison :=
  match a, b with
  | x :: a', y :: b' =>
      match value_compare x y with
      | Eq => key_compare a' b'
      | c => c
      end
  | [], [] => Eq
  | [], _ :: _ => Lt
  | _ :: _, [] => Gt
  end.

Definition value_isnan (v : value) : bool :=
  match v with
  | VFloat x => f64_isnan x
  | _ => false
  end.

Definition row_key (keys : list Series) (i : nat) : option (list value) :=
  mapM (fun s => series_get s i) keys.

(** Groups are kept sorted by key (the default [sort=True]); the rows of a
    group stay in table order. *)
Fixpoint insert_row (key : list value) (i : nat)
    (groups : list (list value * list nat)) : list (list value * list nat) :=
  match groups with
  | [] => [(key, [i])]
  | (k, rows) :: groups' =>
      match key_compare key k with
      | Eq => (k, rows ++ [i]) :: groups'
      | Lt => (key, [i]) :: groups
      | Gt => (k, rows) :: insert_row key i groups'
      end
  end.

(** Rows whose key holds a NaN belong to no group (the default
    [dropna=True]). *)
Definition group_rows (keys : list Series) (n : nat) : list (list value * list nat) :=
  fold_left
    (fun groups i =>
       match row_key keys i with
       | Some k => if existsb value_isnan k then groups else insert_row k i groups
       | None => groups
       end)
    (seq 0 n) [].

(** *** Reductions *)

Definition int64_sum (l : list Z) : Z :=
  fold_left (fun acc x => wrap64 (acc + x)) l 0.

(** Floats are summed with Kahan compensation, the compensation being
    reset when it is no number. *)
Definition kahan_step (st : float64 * float64) (x : float64) : float64 * float64 :=
  let '(sumx, comp) := st in
  let y := f64_sub x comp in
  let t := f64_add sumx y in
  let comp' := f64_sub (f64_sub t sumx) y in
  (t, if f64_isnan comp' then f64_zero else comp').

Definition kahan_sum (l : list float64) : float64 :=
  fst (fold_left kahan_step l (f64_zero, f64_zero)).

Definition dropna (l : list float64) : list float64 :=
  List.filter (fun x => negb (f64_isnan x)) l.

Definition f64_mean (l : list float64) : float64 :=
  f64_div (kahan_sum l) (f64_of_Z (Z.of_nat (length l))).

Definition extremum {A} (better : A -> A -> bool) (l : list A) : option A :=
  match l with
  | [] => None
  | x :: rest => Some (fold_left (fun m y => if better y m then y else m) rest x)
  end.

Definition is_lt (c : comparison) : bool :=
  match c with Lt => true | _ => false end.
Definition is_gt (c : comparison) : bool :=
  match c with Gt => true | _ => false end.

Definition reduce_each {A B} (f : list A -> B) (l : list A)
    (groups : list (list nat)) : list B :=
  List.map (fun g => f (take_rows g l)) groups.

Definition reduce_some {A} (f : list A -> option A) (l : list A)
    (groups : list (list nat)) : result (list A) :=
  rmap (fun g => match f (take_rows g l) with
                 | Some m => Ok m
                 | None => Raise (ValueError "empty group")
                 end) groups.

Definition extremum_series (wins : comparison -> bool) (col : Series)
    (groups : list (list nat)) : result Series :=
  match col with
  | SInt l =>
      (r <- reduce_some (extremum (fun a b => wins (a ?= b))) l groups ;; Ok (SInt r))%py
  | SFloat l =>
      Ok (SFloat (reduce_each
                    (fun g => default S754_nan
                                (extremum (fun a b => wins (f64_compare a b)) (dropna g)))
                    l groups))
  | SStr l =>
      (r <- reduce_some (extremum (fun a b => wins (String.compare a b))) l groups ;;
       Ok (SStr r))%py
  | SDatetime l =>
      (r <- reduce_some (extremum (fun a b => wins (ts_compare a b))) l groups ;;
       Ok (SDatetime r))%py
  end.

(** The reductions known by name, of which five are modelled.  An integer
    sum is an integer, a mean is always a float; NaN entries are
    skipped. *)
Definition agg_alias (name : string) (col : Series) (groups : list (list nat))
  : result Series :=
  if String.eqb name "sum" then
    match col with
    | SInt l => Ok (SInt (reduce_each int64_sum l groups))
    | SFloat l => Ok (SFloat (reduce_each (fun g => kahan_sum (dropna g)) l groups))
    | SStr l => Ok (SStr (reduce_each (str_join "") l groups))
    | SDatetime _ => Raise TypeError
    end
  else if String.eqb name "mean" then
    match col with
    | SInt l => Ok (SFloat (reduce_each (fun g => f64_mean (List.map f64_of_Z g)) l groups))
    | SFloat l => Ok (SFloat (reduce_each (fun g => f64_mean (dropna g)) l groups))
    | SStr _ => Raise TypeError
    | SDatetime _ => Raise NotModelled
    end
  else if String.eqb name "count" then
    match col with
    | SFloat l =>
        Ok (SInt (reduce_each (fun g => Z.of_nat (length (dropna g))) l groups))
    | _ => Ok (SInt (List.map (fun g => Z.of_nat (length g)) groups))
    end
  else if String.eqb name "min" then extremum_series is_lt col groups
  else if String.eqb name "max" then extremum_series is_gt col groups
  else Raise NotModelled.

(** An aggregation is a name pandas knows or a function of the caller's,
    which carries its [__name__]. *)
Inductive aggfun :=
| Alias (name : string)
| Callable (name : string) (f : Series -> result value).

Definition aggfun_name (f : aggfun) : string :=
  match f with
  | Alias name => name
  | Callable name _ => name
  end.

Definition as_ints (vs : list value) : option (list Z) :=
  mapM (fun v => match v with VInt z => Some z | _ => None end) vs.
Definition as_floats (vs : list value) : option (list float64) :=
  mapM (fun v => match v with VFloat x => Some x | _ => None end) vs.
Definition as_strs (vs : list value) : option (list string) :=
  mapM (fun v => match v with VStr s => Some s | _ => None end) vs.
Definition as_dates (vs : list value) : option (list Timestamp) :=
  mapM (fun v => match v with VDatetime t => Some t | _ => None end) vs.

(** The column made of one result per group; results of mixed types are
    outside the model. *)
Definition series_of_values (col : Series) (vs : list value) : result Series :=
  match vs with
  | [] => Ok (series_take [] col)
  | _ =>
      match as_ints vs, as_floats vs, as_strs vs, as_dates vs with
      | Some l, _, _, _ => Ok (SInt l)
      | _, Some l, _, _ => Ok (SFloat l)
      | _, _, Some l, _ => Ok (SStr l)
      | _, _, _, Some l => Ok (SDatetime l)
      | _, _, _, _ => Raise NotModelled
      end
  end.

Definition apply_agg (f : aggfun) (col : Series) (groups : list (list nat))
  : result Series :=
  match f with
  | Alias name => agg_alias name col groups
  | Callable _ g =>
      (vs <- rmap (fun rows => g (series_take rows col)) groups ;;
       series_of_values col vs)%py
  end.

(** *** [df.groupby(by).agg(spec)] *)

(** What a column is aggregated with: one function, or a list of
    them. *)
Inductive aggval :=
| One (f : aggfun)
| Many (fs : list aggfun).

(** [agg_]: a single function for every column, or a dict from column
    names to aggregations.  The dict is kept as the list of its items in
    insertion order, which is the order Python iterates it in. *)
Inductive AggSpec :=
| AggFunc (f : aggfun)
| AggDict (items : list (string * aggval)).

Definition is_many (v : aggval) : bool :=
  match v with Many _ => true | One _ => false end.

Definition funcs_of (v : aggval) : list aggfun :=
  match v with One f => [f] | Many fs => fs end.

(** An aggregated column, or a grouping column, must be one column of the
    frame. *)
Definition column_1d (df : DataFrame) (name : string) : result Series :=
  match getitem_str df name with
  | Ok (ObjSeries s) => Ok s
  | Ok (ObjFrame _) => Raise (ValueError "Grouper not 1-dimensional")
  | Raise e => Raise e
  end.

Definition flat_names (c : Columns) : list string :=
  match c with
  | Index names => names
  | MultiIndex tuples => List.map fst tuples
  end.

(** The levels of the row index that carry a name. *)
Definition index_levels (ix : RowIndex) (name : string) : list Series :=
  match ix with
  | RangeIndex _ => []
  | KeyIndex names levels => List.map snd (select (String.eqb name) names levels)
  end.

(** A grouping key is a column, or else a level of the row index; a name
    that is both, or that several levels carry, is refused. *)
Definition group_key (df : DataFrame) (name : string) : result Series :=
  if in_columns name (columns df) then
    match index_levels (index df) name with
    | [] => column_1d df name
    | _ => Raise (ValueError "both an index level and a column label")
    end
  else
    match index_levels (index df) name with
    | [] => Raise KeyError
    | [s] => Ok s
    | _ => Raise (ValueError "the name occurs multiple times")
    end.

(** The columns of one dict item, one per function. *)
Definition agg_item (df : DataFrame) (groups : list (list nat))
    (item : string * aggval) : result (list ((string * string) * Series)) :=
  let '(name, v) := item in
  (col <- column_1d df name ;;
   rmap (fun f => s <- apply_agg f col groups ;;
                  Ok ((name, aggfun_name f), s))
        (funcs_of v))%py.

(** The result has one row per group, the group keys as row index, and
    - for a single function, every column that is no grouping key, under
      its own label;
    - for a dict without lists, the dict's columns under their own names;
    - for a dict with at least one list, a two-level column index of
      (column, function name) for every item.
    A dict on a frame whose columns are already two-level is outside the
    model. *)
Definition pd_groupby_agg (df : DataFrame) (by_ : list string) (spec : AggSpec)
  : result DataFrame :=
  match by_ with
  | [] => Raise (ValueError "No group keys passed!")
  | _ =>
      (keys <- rmap (group_key df) by_ ;;
       let groups := List.map snd (group_rows keys (nrows df)) in
       let firsts := omap head groups in
       let ix := KeyIndex by_ (List.map (series_take firsts) keys) in
       match spec, columns df with
       | AggFunc f, Index names =>
           let others := select (fun n => negb (existsb (String.eqb n) by_))
                                names (data df) in
           cols <- rmap (fun c => apply_agg f (snd c) groups) others ;;
           Ok (mkDataFrame ix (Index (List.map fst others)) cols)
       | AggFunc f, MultiIndex tuples =>
           let others := select (fun t => negb (existsb (String.eqb (fst t)) by_))
                                tuples (data df) in
           cols <- rmap (fun c => apply_agg f (snd c) groups) others ;;
           Ok (mkDataFrame ix (MultiIndex (List.map fst others)) cols)
       | AggDict items, Index _ =>
           blocks <- rmap (agg_item df groups) items ;;
           let cols := concat blocks in
           if existsb is_many (List.map snd items)
           then Ok (mkDataFrame ix (MultiIndex (List.map fst cols)) (List.map snd cols))
           else Ok (mkDataFrame ix (Index (List.map (fun c => fst (fst c)) cols))
                                (List.map snd cols))
       | AggDict _, MultiIndex _ => Raise NotModelled
       end)%py
  end.

(** *** [df.reset_index()] *)

Definition prepend_column (name : string) (s : Series) (df : DataFrame) : DataFrame :=
  match columns df with
  | Index names => mkDataFrame (index df) (Index (name :: names)) (s :: data df)
  | MultiIndex tuples =>
      mkDataFrame (index df) (MultiIndex ((name, "") :: tuples)) (s :: data df)
  end.

(** The index levels become the leading columns, inserted from the last
    level to the first; a level whose name is already a column cannot be
    inserted.  Under a two-level column index a level [name] is inserted
    as [(name, '')]. *)
Fixpoint insert_levels (names : list string) (levels : list Series)
    (df : DataFrame) : result DataFrame :=
  match names, levels with
  | n :: names', l :: levels' =>
      (df' <- insert_levels names' levels' df ;;
       if in_columns n (columns df')
       then Raise (ValueError "cannot insert, already exists")
       else Ok (prepend_column n l df'))%py
  | _, _ => Ok df
  end.

Definition reset_index (df : DataFrame) : result DataFrame :=
  let n := nrows df in
  let body := mkDataFrame (RangeIndex n) (columns df) (data df) in
  match index df with
  | KeyIndex names levels => insert_levels names levels body
  | RangeIndex _ =>
      let old := SInt (List.map Z.of_nat (seq 0 n)) in
      if negb (in_columns "index" (columns df)) then Ok (prepend_column "index" old body)
      else if negb (in_columns "level_0" (columns df))
           then Ok (prepend_column "level_0" old body)
           else Raise (ValueError "cannot insert, already exists")
  end.

(** ** groupby_and_agg (lines 157-229) *)

(** The function warns on the way; a computation carries the warnings
    emitted so far along with its outcome. *)
Definition M (A : Type) : Type := list string -> result A * list string.

Definition ret {A} (a : A) : M A := fun w => (Ok a, w).
Definition raise {A} (e : exn) : M A := fun w => (Raise e, w).
Definition lift {A} (r : result A) : M A := fun w => (r, w).
Definition warn (msg : string) : M unit := fun w => (Ok tt, w ++ [msg]).
Definition bind {A B} (m : M A) (k : A -> M B) : M B :=
  fun w => match m w with
           | (Ok a, w') => k a w'
           | (Raise e, w') => (Raise e, w')
           end.

Declare Scope warn_scope.
Delimit Scope warn_scope with warn.
Notation "x <- c1 ;; c2" := (bind c1 (fun x => c2))
  (at level 100, c1 at next level, right associativity) : warn_scope.
Notation "c1 ;;; c2" := (bind c1 (fun _ => c2))
  (at level 100, right associativity) : warn_scope.

(** The values a keyword argument may hold, as far as their type
    matters. *)
Inductive pyval :=
| PyNone
| PyBool (b : bool)
| PyInt (z : Z)
| PyStr (s : string).

(** [groupby_cols]: "str or list". *)
Inductive GroupbyCols :=
| GStr (s : string)
| GList (l : list string).

Definition groupby_keys (g : GroupbyCols) : list string :=
  match g with
  | GStr s => [s]
  | GList l => l
  end.

(** [df.groupby(keys)] with a list of as many names as the frame has
    rows, not all of them columns or index levels, takes the list for one
    key, the names being its values.  That grouping is outside the model. *)
Definition keys_taken_as_values (df : DataFrame) (g : GroupbyCols) : bool :=
  match g with
  | GStr _ => false
  | GList l =>
      Nat.eqb (length l) (nrows df)
      && negb (forallb (fun k => in_columns k (columns df)
                                 || match index_levels (index df) k with
                                    | [] => false
                                    | _ => true
                                    end) l)
  end.

(** [groupby_cols + return_cols]: lists concatenate, a string and a list
    do not. *)
Definition py_add (g : GroupbyCols) (return_cols : list label) : result (list label) :=
  match g with
  | GList l => Ok (List.map LStr l ++ return_cols)
  | GStr _ => Raise TypeError
  end.

Definition invalid_column_warning : string :=
  "Invalid column name passed in agg_ argument - returning original DataFrame".
Definition no_multiindex_warning : string :=
  "No MultiIndex detected. No column collapse wil be performed".

(** Lines 193-197: the first dict key that is no column of [df], if any. *)
Definition first_invalid_key (df : DataFrame) (agg_ : AggSpec) : option string :=
  match agg_ with
  | AggDict items =>
      List.find (fun a => negb (in_columns a (columns df))) (List.map fst items)
  | AggFunc _ => None
  end.

(** Lines 200-204. *)
Definition reset_index_kwarg (kwargs : gmap string pyval) : M bool :=
  match kwargs !! "reset_index" with
  | Some (PyBool b) => ret b
  | Some _ => raise AssertionError
  | None => ret true
  end.

(** Lines 215-217: the two comprehensions over the column tuples, and
    what they make of one tuple. *)
Definition collapse_name (col : string * string) : string :=
  removesuffix (str_join "_" [fst col; snd col]) "_".

Definition collapse_columns (tuples : list (string * string)) : list string :=
  List.map (fun col => removesuffix col "_")
           (List.map (fun col => str_join "_" [fst col; snd col]) tuples).

(** Lines 213-219. *)
Definition collapse_step (collapse_multicolumn : bool) (df_agg : DataFrame)
  : M DataFrame :=
  if collapse_multicolumn then
    match columns df_agg with
    | MultiIndex tuples => ret (set_columns df_agg (Index (collapse_columns tuples)))
    | Index _ => (warn no_multiindex_warning ;;; ret df_agg)%warn
    end
  else ret df_agg.

(** Lines 222-229. *)
Definition narrow (df_agg : DataFrame) (groupby_cols : GroupbyCols)
    (return_cols : option (list string)) (reset_index_ : bool) : M DataFrame :=
  (return_cols <-
     match return_cols with
     | None => ret (columns_list (columns df_agg))
     | Some rc =>
         if reset_index_ then lift (py_add groupby_cols (List.map LStr rc))
         else ret (List.map LStr rc)
     end ;;
   lift (getitem_list df_agg return_cols))%warn.

(** Lines 207-210. *)
Definition aggregate (df : DataFrame) (groupby_cols : GroupbyCols) (agg_ : AggSpec)
    (reset_index_ : bool) : M DataFrame :=
  (df_agg <- lift (if keys_taken_as_values df groupby_cols then Raise NotModelled
                   else pd_groupby_agg df (groupby_keys groupby_cols) agg_) ;;
   if reset_index_ then lift (reset_index df_agg) else ret df_agg)%warn.

Definition groupby_and_agg (df : DataFrame) (groupby_cols : GroupbyCols)
    (agg_ : AggSpec) (collapse_multicolumn : bool)
    (return_cols : option (list string)) (kwargs : gmap string pyval)
  : M DataFrame :=
  match first_invalid_key df agg_ with
  | Some _ => (warn invalid_column_warning ;;; ret df)%warn
  | None =>
      (reset_index_ <- reset_index_kwarg kwargs ;;
       df_agg <- aggregate df groupby_cols agg_ reset_index_ ;;
       df_agg <- collapse_step collapse_multicolumn df_agg ;;
       narrow df_agg groupby_cols return_cols reset_index_)%warn
  end.

(** The table of the worked examples: rows (a, 1), (a, 3), (b, 5). *)
Definition sample : DataFrame :=
  mkDataFrame (RangeIndex 3) (Index ["g"; "x"])
    [SStr ["a"; "a"; "b"]; SInt [1; 3; 5]].

(** The frame seen row by row. *)
Definition frame_rows (df : DataFrame) : list (list value) :=
  omap (fun i => mapM (fun s => series_get s i) (data df)) (seq 0 (nrows df)).

(** Lines 207-219 as one stage: the aggregated frame that reaches the
    column narrowing. *)
Definition aggregated (df : DataFrame) (groupby_cols : GroupbyCols) (agg_ : AggSpec)
    (collapse_multicolumn reset_index_ : bool) : M DataFrame :=
  (df_agg <- aggregate df groupby_cols agg_ reset_index_ ;;
   collapse_step collapse_multicolumn df_agg)%warn.

(** A table in the usual sense: flat column names, pairwise distinct, one
    series each. *)
Definition well_formed_table (df : DataFrame) : Prop :=
  match columns df with
  | Index names => NoDup names /\ length (data df) = length names
  | MultiIndex _ => False
  end.

(** The columns a name designates in a frame with flat columns. *)
Definition col (df : DataFrame) (n : string) : list (string * Series) :=
  select (String.eqb n) (flat_names (columns df)) (data df).

(** ** DirectoryMapper (lines 11-67) *)

Record DirectoryMapper := mkDirectoryMapper {
  base_dir : Path;
  project_dir : Path;
  config_path : Path;
  sql_dir : Path;
  data_dir : Path;
  raw_data_dir : Path;
  interim_data_dir : Path;
  processed_data_dir : Path;
  external_data_dir : Path;
  model_dir : Path;
  output_dir : Path;
  output_data_dir : Path;
  output_figs_dir : Path;
  output_pred_dir : Path
}.

Definition default_base_dir : Path :=
  PurePath "/Users/kevinstoltz/Documents/Projects/Kaggle".

(** [__init__] *)
Definition DirectoryMapper_init (project_name : string) (base_dir : Path)
  : DirectoryMapper :=
  let project_dir := base_dir // project_name in
  let config_path := project_dir // "configs" in
  let sql_dir := project_dir // "sql" in
  let data_dir := project_dir // "data" in
  let raw_data_dir := data_dir // "raw" in
  let interim_data_dir := data_dir // "interim" in
  let processed_data_dir := data_dir // "processed" in
  let external_data_dir := data_dir // "external" in
  let model_dir := project_dir // "models" in
  let output_dir := project_dir // "reports" in
  let output_data_dir := output_dir // "data" in
  let output_figs_dir := output_dir // "figures" in
  let output_pred_dir := output_dir // "predictions" in
  mkDirectoryMapper base_dir project_dir config_path sql_dir data_dir
    raw_data_dir interim_data_dir processed_data_dir external_data_dir
    model_dir output_dir output_data_dir output_figs_dir output_pred_dir.

(** The four data-level directories, keyed by level. *)
Definition data_levels (self : DirectoryMapper) : list (string * Path) :=
  [("raw", raw_data_dir self); ("interim", interim_data_dir self);
   ("processed", processed_data_dir self); ("external", external_data_dir self)].

(** What the readers are handed: [file_name] itself (a string) when no
    level is given, a path under a data directory otherwise. *)
Inductive PathArg :=
| AsStr (s : string)
| AsPath (p : Path).

Section Loader.

(** [pd.read_parquet] and [pd.read_csv]: the file system is theirs. *)
Variables pd_read_parquet pd_read_csv : PathArg -> result DataFrame.

Definition load_data (self : DirectoryMapper) (file_name : string)
    (level : option string) (file_type : string) : result DataFrame :=
  (file_type <- match file_type with
                | EmptyString => Raise IndexError
                | String c rest => if Ascii.eqb c "." then Ok rest else Ok file_type
                end ;;
   let file_name := file_name +:+ "." +:+ file_type in
   in_file_name <-
     match level with
     | None => Ok (AsStr file_name)
     | Some level =>
         if String.eqb level "raw" then Ok (AsPath (raw_data_dir self // file_name))
         else if String.eqb level "interim" then
           Ok (AsPath (interim_data_dir self // file_name))
         else if String.eqb level "processed" then
           Ok (AsPath (processed_data_dir self // file_name))
         else if String.eqb level "external" then
           Ok (AsPath (external_data_dir self // file_name))
         else Raise (ValueError "Please provide valid level")
     end ;;
   if String.eqb file_type "parquet" then pd_read_parquet in_file_name
   else if String.eqb file_type "csv" then pd_read_csv in_file_name
   else Raise (ValueError "Provide valid file type"))%py.

End Loader.

(** The file types [load_data] reads, as written by the caller and as
    used once a leading dot is stripped. *)
Definition stripped_file_types : list (string * string) :=
  [("parquet", "parquet"); (".parquet", "parquet"); ("csv", "csv"); (".csv", "csv")].

(** A file name with no directory part. *)
Fixpoint no_slash (s : string) : bool :=
  match s with
  | EmptyString => true
  | String c s' => negb (Ascii.eqb c "/") && no_slash s'
  end.

(** The directories a mapper holds below its base directory, in the order
    [__init__] sets them. *)
Definition mapped_dirs (self : DirectoryMapper) : list Path :=
  [project_dir self; config_path self; sql_dir self; data_dir self;
   raw_data_dir self; interim_data_dir self; processed_data_dir self;
   external_data_dir self; model_dir self; output_dir self;
   output_data_dir self; output_figs_dir self; output_pred_dir self].



(** ** handle_date_cols (lines 70-103) *)

(** Python truthiness, for [if drop_date_cols:]. *)
Definition truthy (v : pyval) : bool :=
  match v with
  | PyNone => false
  | PyBool b => b
  | PyInt z => negb (z =? 0)
  | PyStr s => negb (String.eqb s "")
  end.

(** [create_date_parts(df, **kwargs)]: the only keyword the callee takes
    besides [df] is [drop_date_cols], which defaults to [True]; any other
    keyword is a type error of the call. *)
Definition create_date_parts_kwargs (df : DataFrame) (kwargs : gmap string pyval)
  : result DataFrame :=
  if decide (delete "drop_date_cols" kwargs = ∅)
  then create_date_parts df (match kwargs !! "drop_date_cols" with
                             | Some v => truthy v
                             | None => true
                             end)
  else Raise TypeError.

Section DateParsing.

(** [pd.to_datetime]: the inference of the date format is the library's. *)
Variable pd_to_datetime : PdObj -> result Series.

(** The loop [for d in date_cols: df[d] = pd.to_datetime(df[d])]. *)
Fixpoint convert_date_cols (date_cols : list string) (df : DataFrame)
  : result DataFrame :=
  match date_cols with
  | [] => Ok df
  | d :: rest =>
      (col <- getitem_str df d ;;
       dates <- pd_to_datetime col ;;
       df' <- setitem df d dates ;;
       convert_date_cols rest df')%py
  end.

Definition handle_date_cols (df : DataFrame) (date_cols : list string)
    (add_date_parts : bool) (kwargs : gmap string pyval) : result DataFrame :=
  (df <- convert_date_cols date_cols df ;;
   if add_date_parts then create_date_parts_kwargs df kwargs else Ok df)%py.

End DateParsing.

(** The names of the date columns of a frame with flat columns, in column
    order. *)
Fixpoint date_names (names : list string) (cols : list Series) : list string :=
  match names, cols with
  | n :: names', s :: cols' =>
      if is_datetime s then n :: date_names names' cols' else date_names names' cols'
  | _, _ => []
  end.

(** The names of the date columns of a frame. *)
Definition dates_of (df : DataFrame) : list string :=
  date_names (flat_names (columns df)) (data df).

(** A table with two date columns. *)
Definition two_dates : DataFrame :=
  mkDataFrame (RangeIndex 1) (Index ["a"; "k"; "b"])
    [SDatetime [mkTimestamp 2018 2 1]; SInt [7]; SDatetime [mkTimestamp 2017 12 31]].

(** A table whose dates are still strings. *)
Definition sample_strings : DataFrame :=
  mkDataFrame (RangeIndex 2) (Index ["id"; "d"])
    [SInt [1; 2]; SStr ["2018-02-01"; "2017-12-31"]].

(** * Properties *)

(** ** The warning monad *)

Lemma bind_ok {A B} (m : M A) (k : A -> M B) w a w' :
  m w = (Ok a, w') -> bind m k w = k a w'.
Proof. intros H. unfold bind. now rewrite H. Qed.

(** Past the validation and the keyword handling, the call is the
    aggregation stage followed by the narrowing. *)
Lemma groupby_and_agg_stages df g agg_ c rc kwargs r w :
  first_invalid_key df agg_ = None ->
  reset_index_kwarg kwargs = ret r ->
  groupby_and_agg df g agg_ c rc kwargs w =
  bind (aggregated df g agg_ c r) (fun df_agg => narrow df_agg g rc r) w.
Proof.
  intros Hv Hk. unfold groupby_and_agg, aggregated. rewrite Hv.
  unfold bind at 1. rewrite Hk. cbn [ret].
  unfold bind.
  destruct (aggregate df g agg_ r w) as [[d|e] w1]; [|reflexivity].
  now destruct (collapse_step c d w1) as [[d'|e] w2].
Qed.

(** ** GroupByAndAggregate: validation of the aggregation spec *)

Lemma first_invalid_key_some df items :
  (exists a, In a (List.map fst items) /\ in_columns a (columns df) = false) ->
  exists a, first_invalid_key df (AggDict items) = Some a.
Proof.
  intros [a [Hin Ha]]. cbn [first_invalid_key].
  destruct (List.find _ _) as [b|] eqn:Hf; [now exists b|].
  apply (List.find_none _ _ Hf) in Hin. rewrite Ha in Hin. discriminate.
Qed.

(** C1.  When the aggregation spec is a dict and one of its keys is no
    column of the table, the call emits the warning and returns the input
    table itself, whatever the other arguments are: nothing is grouped, and
    the [reset_index] keyword is not even looked at. *)
Theorem invalid_agg_key_returns_original
    (df : DataFrame) (groupby_cols : GroupbyCols) (items : list (string * aggval))
    (collapse_multicolumn : bool) (return_cols : option (list string))
    (kwargs : gmap string pyval) (w : list string) :
  (exists a, In a (List.map fst items) /\ in_columns a (columns df) = false) ->
  groupby_and_agg df groupby_cols (AggDict items) collapse_multicolumn
                  return_cols kwargs w
  = (Ok df, w ++ [invalid_column_warning]).
Proof.
  intros H. destruct (first_invalid_key_some df items H) as [a Ha].
  unfold groupby_and_agg. rewrite Ha. reflexivity.
Qed.

Lemma invalid_agg_key_returns_original_witness :
  groupby_and_agg sample (GStr "g") (AggDict [("x", One (Alias "sum")); ("y", One (Alias "sum"))])
                  false (Some ["nope"]) {["reset_index" := PyStr "yes"]} []
  = (Ok sample, [invalid_column_warning]).
Proof.
  apply (invalid_agg_key_returns_original sample (GStr "g")
           [("x", One (Alias "sum")); ("y", One (Alias "sum"))] false (Some ["nope"])
           {["reset_index" := PyStr "yes"]} []).
  exists "y". split; [simpl; auto | reflexivity].
Defined.

(** ** GroupByAndAggregate: the worked examples *)

(** C3.  On rows (a, 1), (a, 3), (b, 5), grouping by [['g']] with
    [{'x': ['sum', 'mean']}], index reset and collapse gives the flat
    columns g, x_sum, x_mean and the rows (a, 4, 2.0), (b, 5, 5.0), with
    no warning; passing [reset_index=True] or leaving it out is the same. *)
Theorem example_sum_mean :
  let expected :=
    mkDataFrame (RangeIndex 2) (Index ["g"; "x_sum"; "x_mean"])
      [SStr ["a"; "b"]; SInt [4; 5]; SFloat [f64_of_Z 2; f64_of_Z 5]] in
  groupby_and_agg sample (GList ["g"]) (AggDict [("x", Many [Alias "sum"; Alias "mean"])])
                  true None {["reset_index" := PyBool true]} [] = (Ok expected, [])
  /\ groupby_and_agg sample (GList ["g"]) (AggDict [("x", Many [Alias "sum"; Alias "mean"])])
                  true None ∅ [] = (Ok expected, [])
  /\ frame_rows expected = [[VStr "a"; VInt 4; VFloat (f64_of_Z 2)];
                            [VStr "b"; VInt 5; VFloat (f64_of_Z 5)]]
  /\ f64_of_Z 2 = S754_finite false (2 ^ 52) (-51)
  /\ f64_of_Z 5 = S754_finite false (5 * 2 ^ 50) (-50).
Proof. vm_compute. repeat split. Qed.

(** C4.  On the same rows, grouping by [['g']] with [{'x': 'sum'}] and
    index reset gives the flat columns g, x and the rows (a, 4), (b, 5). *)
Theorem example_single_sum :
  let expected :=
    mkDataFrame (RangeIndex 2) (Index ["g"; "x"]) [SStr ["a"; "b"]; SInt [4; 5]] in
  groupby_and_agg sample (GList ["g"]) (AggDict [("x", One (Alias "sum"))])
                  true None {["reset_index" := PyBool true]} []
  = (Ok expected, [no_multiindex_warning])
  /\ columns expected = Index ["g"; "x"]
  /\ frame_rows expected = [[VStr "a"; VInt 4]; [VStr "b"; VInt 5]].
Proof. vm_compute. repeat split. Qed.

(** ** GroupByAndAggregate: the [reset_index] keyword *)

Lemma reset_index_kwarg_not_bool kwargs v :
  kwargs !! "reset_index" = Some v -> (forall b, v <> PyBool b) ->
  reset_index_kwarg kwargs = raise AssertionError.
Proof.
  intros Hk Hv. unfold reset_index_kwarg. rewrite Hk.
  destruct v; try reflexivity. now destruct (Hv b).
Qed.

Lemma reset_index_kwarg_bool kwargs b :
  kwargs !! "reset_index" = Some (PyBool b) -> reset_index_kwarg kwargs = ret b.
Proof. intros Hk. unfold reset_index_kwarg. now rewrite Hk. Qed.

(** C9, as stated, fails: with a non-boolean [reset_index] and a dict key
    that is no column, the call returns the input table with a warning and
    no assertion fails. *)
Lemma non_bool_reset_index_short_circuit :
  let kwargs : gmap string pyval := {["reset_index" := PyStr "yes"]} in
  let outcome :=
    groupby_and_agg sample (GList ["g"]) (AggDict [("y", One (Alias "sum"))])
                    true None kwargs [] in
  kwargs !! "reset_index" = Some (PyStr "yes")
  /\ outcome = (Ok sample, [invalid_column_warning])
  /\ fst outcome <> Raise AssertionError.
Proof. vm_compute. repeat split. discriminate. Qed.

(** C9, amended.  When the aggregation spec passes the validation and
    [reset_index] is passed with a value that is no boolean, the call
    fails with an assertion error, before any grouping: no warning is
    added and the outcome does not depend on the table.  With a boolean
    value, the grouping stage runs with exactly that value. *)
Theorem non_bool_reset_index_asserts
    (df : DataFrame) (groupby_cols : GroupbyCols) (agg_ : AggSpec)
    (collapse_multicolumn : bool) (return_cols : option (list string))
    (kwargs : gmap string pyval) (w : list string) :
  first_invalid_key df agg_ = None ->
  (forall v, kwargs !! "reset_index" = Some v -> (forall b, v <> PyBool b) ->
     groupby_and_agg df groupby_cols agg_ collapse_multicolumn return_cols kwargs w
     = (Raise AssertionError, w))
  /\ (forall b, kwargs !! "reset_index" = Some (PyBool b) ->
     groupby_and_agg df groupby_cols agg_ collapse_multicolumn return_cols kwargs w
     = bind (aggregated df groupby_cols agg_ collapse_multicolumn b)
            (fun df_agg => narrow df_agg groupby_cols return_cols b) w).
Proof.
  intros Hv. split.
  - intros v Hk Hb. unfold groupby_and_agg. rewrite Hv.
    unfold bind. now rewrite (reset_index_kwarg_not_bool kwargs v Hk Hb).
  - intros b Hk. apply groupby_and_agg_stages; [assumption|].
    now apply reset_index_kwarg_bool.
Qed.

Lemma non_bool_reset_index_asserts_witness :
  groupby_and_agg sample (GList ["g"]) (AggDict [("x", One (Alias "sum"))])
                  true None {["reset_index" := PyInt 1]} []
  = (Raise AssertionError, [])
  /\ groupby_and_agg sample (GList ["g"]) (AggDict [("x", One (Alias "sum"))])
                  true None {["reset_index" := PyBool false]} []
     = bind (aggregated sample (GList ["g"]) (AggDict [("x", One (Alias "sum"))]) true false)
            (fun df_agg => narrow df_agg (GList ["g"]) None false) [].
Proof.
  split.
  - refine (proj1 (non_bool_reset_index_asserts sample (GList ["g"])
                     (AggDict [("x", One (Alias "sum"))]) true None
                     {["reset_index" := PyInt 1]} [] _) (PyInt 1) _ _).
    + reflexivity.
    + reflexivity.
    + intros b. discriminate.
  - refine (proj2 (non_bool_reset_index_asserts sample (GList ["g"])
                     (AggDict [("x", One (Alias "sum"))]) true None
                     {["reset_index" := PyBool false]} [] _) false _).
    + reflexivity.
    + reflexivity.
Defined.

(** ** GroupByAndAggregate: narrowing with a string for [groupby_cols] *)

(** C10.  With [groupby_cols] a single string, [return_cols] given and the
    index reset, the narrowing step raises a type error on
    [groupby_cols + return_cols], whatever the aggregated frame is; so does
    every call that gets as far as the narrowing.  With a list the sum is
    the concatenation. *)
Theorem string_groupby_cols_type_error
    (s : string) (rc : list string) :
  (forall df_agg w,
     narrow df_agg (GStr s) (Some rc) true w = (Raise TypeError, w))
  /\ (forall df agg_ collapse_multicolumn kwargs w df_agg w1,
        first_invalid_key df agg_ = None ->
        reset_index_kwarg kwargs = ret true ->
        aggregated df (GStr s) agg_ collapse_multicolumn true w = (Ok df_agg, w1) ->
        groupby_and_agg df (GStr s) agg_ collapse_multicolumn (Some rc) kwargs w
        = (Raise TypeError, w1))
  /\ (forall l, py_add (GList l) (List.map LStr rc) = Ok (List.map LStr (l ++ rc))).
Proof.
  split; [|split].
  - reflexivity.
  - intros df agg_ c kwargs w df_agg w1 Hv Hk Ha.
    rewrite (groupby_and_agg_stages df (GStr s) agg_ c (Some rc) kwargs true w Hv Hk).
    now rewrite (bind_ok _ _ _ _ _ Ha).
  - intros l. cbn [py_add]. now rewrite List.map_app.
Qed.

Lemma string_groupby_cols_type_error_witness :
  groupby_and_agg sample (GStr "g") (AggFunc (Alias "sum")) true (Some ["x"]) ∅ []
  = (Raise TypeError, [no_multiindex_warning]).
Proof.
  refine (proj1 (proj2 (string_groupby_cols_type_error "g" ["x"]))
            sample (AggFunc (Alias "sum")) true ∅ []
            (mkDataFrame (RangeIndex 2) (Index ["g"; "x"]) [SStr ["a"; "b"]; SInt [4; 5]])
            [no_multiindex_warning] _ _ _); reflexivity.
Defined.

(** ** TableLoader *)

(** X20.  With a file type that is not empty, an unknown level is reported
    as such before anything is read, whether or not the file type is one
    [load_data] knows. *)
Lemma load_data_invalid_level rp rc self file_name level c rest :
  ~ In level ["raw"; "interim"; "processed"; "external"] ->
  load_data rp rc self file_name (Some level) (String c rest)
  = Raise (ValueError "Please provide valid level").
Proof.
  intros Hl. unfold load_data.
  assert (String.eqb level "raw" = false /\ String.eqb level "interim" = false /\
          String.eqb level "processed" = false /\ String.eqb level "external" = false)
    as (H1 & H2 & H3 & H4).
  { repeat split; apply String.eqb_neq; intros ->; apply Hl; simpl; auto. }
  destruct (Ascii.eqb c "."); cbn [rbind]; now rewrite H1, H2, H3, H4.
Qed.

(** C6, at the input where the code departs from it: with an empty
    [file_type], [file_type[0]] raises an index error before the level is
    examined, whatever the level is. *)
Theorem load_data_empty_file_type rp rc self file_name level :
  load_data rp rc self file_name (Some level) "" = Raise IndexError
  /\ load_data rp rc self "f" (Some "bogus") ""
     <> Raise (ValueError "Please provide valid level").
Proof. split; [reflexivity | discriminate]. Qed.

(** ** Strings *)

Lemma str_app_cons c s t : String c s +:+ t = String c (s +:+ t).
Proof. reflexivity. Qed.

Lemma str_app_nil_l t : "" +:+ t = t.
Proof. reflexivity. Qed.

Lemma str_app_assoc a b c : (a +:+ b) +:+ c = a +:+ (b +:+ c).
Proof.
  induction a as [|x a IH]; [reflexivity|].
  now rewrite !str_app_cons, IH.
Qed.

Lemma str_length_app a b :
  String.length (a +:+ b) = (String.length a + String.length b)%nat.
Proof.
  induction a as [|x a IH]; [reflexivity|].
  rewrite str_app_cons. cbn [String.length]. now rewrite IH.
Qed.

Lemma substring_prefix a b : String.substring 0 (String.length a) (a +:+ b) = a.
Proof.
  induction a as [|x a IH].
  - rewrite str_app_nil_l. now destruct b.
  - rewrite str_app_cons. cbn [String.length String.substring]. now rewrite IH.
Qed.

Lemma substring_skip a b n m :
  String.substring (String.length a + n) m (a +:+ b) = String.substring n m b.
Proof.
  induction a as [|x a IH]; [reflexivity|].
  rewrite str_app_cons. cbn [String.length Nat.add String.substring]. exact IH.
Qed.

Lemma endswith_app p s suffix :
  (String.length suffix <= String.length s)%nat ->
  endswith (p +:+ s) suffix = endswith s suffix.
Proof.
  intros Hle. unfold endswith. rewrite str_length_app.
  destruct (Nat.leb_spec (String.length suffix) (String.length p + String.length s));
    [|lia].
  destruct (Nat.leb_spec (String.length suffix) (String.length s)); [|lia].
  replace (String.length p + String.length s - String.length suffix)%nat
    with (String.length p + (String.length s - String.length suffix))%nat by lia.
  now rewrite substring_skip.
Qed.

Lemma removesuffix_separator s : removesuffix (s +:+ "_") "_" = s.
Proof.
  unfold removesuffix.
  rewrite (endswith_app s "_" "_") by (cbn; lia).
  cbn [String.eqb negb andb]. change (endswith "_" "_") with true. cbn iota.
  rewrite str_length_app. cbn [String.length].
  replace (String.length s + 1 - 1)%nat with (String.length s) by lia.
  apply substring_prefix.
Qed.

Lemma removesuffix_absent s suffix :
  endswith s suffix = false -> removesuffix s suffix = s.
Proof. intros H. unfold removesuffix. rewrite H. now rewrite andb_false_r. Qed.

(** ** Column collapsing *)

Lemma collapse_columns_map tuples :
  collapse_columns tuples = List.map collapse_name tuples.
Proof. unfold collapse_columns. now rewrite List.map_map. Qed.

(** C5, as stated, fails: a function name that ends with the separator
    loses it. *)
Lemma collapse_strips_function_name :
  collapse_columns [("x", "f_")] = ["x_f"]
  /\ collapse_name ("x", "f_") <> "x" +:+ "_" +:+ "f_".
Proof. split; [reflexivity | discriminate]. Qed.

(** C5, amended.  A pair (name, func) is flattened to [name_func] with one
    trailing separator removed: to [name] when [func] is empty, and to
    [name_func] itself when [func] is not empty and does not end with the
    separator.  The step rewrites the column labels only: the row index
    and the data are those of the aggregated frame, label for label, and
    no warning is emitted. *)
Theorem collapse_is_join_then_strip (name func : string) :
  collapse_name (name, func) = removesuffix (name +:+ "_" +:+ func) "_"
  /\ (func = "" -> collapse_name (name, func) = name)
  /\ (func <> "" -> endswith func "_" = false ->
      collapse_name (name, func) = name +:+ "_" +:+ func)
  /\ (forall df_agg tuples w,
        columns df_agg = MultiIndex tuples ->
        collapse_step true df_agg w
        = (Ok (mkDataFrame (index df_agg) (Index (List.map collapse_name tuples))
                           (data df_agg)), w)).
Proof.
  split; [reflexivity|]. split; [|split].
  - intros ->. unfold collapse_name. cbn [str_join fst snd].
    apply removesuffix_separator.
  - intros Hne Hend. unfold collapse_name. cbn [str_join fst snd].
    apply removesuffix_absent. rewrite <- str_app_assoc.
    rewrite endswith_app; [assumption|].
    destruct func; [congruence | cbn; lia].
  - intros df_agg tuples w Hc. unfold collapse_step. rewrite Hc.
    now rewrite collapse_columns_map.
Qed.

Lemma collapse_is_join_then_strip_witness :
  collapse_name ("g", "") = "g" /\ collapse_name ("x", "sum") = "x_sum"
  /\ collapse_step true
       (mkDataFrame (RangeIndex 1) (MultiIndex [("g", ""); ("x", "sum")])
                    [SStr ["a"]; SInt [4]]) []
     = (Ok (mkDataFrame (RangeIndex 1)
              (Index (List.map collapse_name [("g", ""); ("x", "sum")]))
              [SStr ["a"]; SInt [4]]), []).
Proof.
  split; [|split].
  - exact (proj1 (proj2 (collapse_is_join_then_strip "g" "")) eq_refl).
  - refine (proj1 (proj2 (proj2 (collapse_is_join_then_strip "x" "sum"))) _ _).
    + discriminate.
    + reflexivity.
  - exact (proj2 (proj2 (proj2 (collapse_is_join_then_strip "g" "")))
             (mkDataFrame (RangeIndex 1) (MultiIndex [("g", ""); ("x", "sum")])
                          [SStr ["a"]; SInt [4]])
             [("g", ""); ("x", "sum")] [] eq_refl).
Defined.

(** The stripped name is reachable from a call: a caller's function whose
    name ends with the separator gives the column [x_total]. *)
Example callable_name_is_stripped :
  fst (groupby_and_agg sample (GList ["g"])
         (AggDict [("x", Many [Callable "total_" (fun s => Ok (VInt (Z.of_nat (series_len s))))])])
         true None ∅ [])
  = Ok (mkDataFrame (RangeIndex 2) (Index ["g"; "x_total"]) [SStr ["a"; "b"]; SInt [2; 1]]).
Proof. reflexivity. Qed.

(** ** Paths *)


Lemma split_on_no_slash s : no_slash s = true -> split_on "/" s = [s].
Proof.
  induction s as [|c s IH]; [reflexivity|].
  cbn [no_slash split_on]. intros [Hc Hs]%andb_true_iff.
  apply negb_true_iff in Hc. rewrite Hc. now rewrite (IH Hs).
Qed.

Lemma parse_root_no_slash s : no_slash s = true -> parse_root s = "".
Proof.
  destruct s as [|c s]; [reflexivity|].
  cbn [no_slash]. intros [Hc _]%andb_true_iff. apply negb_true_iff in Hc.
  unfold parse_root. cbn [leading_slashes]. now rewrite Hc.
Qed.

(** A plain name with at least two characters is one path component. *)
Lemma path_join_plain p s :
  no_slash s = true -> (2 <= String.length s)%nat ->
  p // s = mkPath (root p) (parts p ++ [s]).
Proof.
  intros Hs Hlen. unfold path_join. rewrite (parse_root_no_slash s Hs).
  cbn [String.eqb]. unfold parse_parts. rewrite (split_on_no_slash s Hs).
  destruct s as [|c [|c' s]]; cbn in Hlen; try lia.
  cbn [List.filter String.eqb]. destruct (Ascii.eqb c "."); reflexivity.
Qed.










(** ** Column selection *)

Lemma select_sound {L} (p : L -> bool) labels cols l s :
  In (l, s) (select p labels cols) -> p l = true /\ In l labels.
Proof.
  revert cols. induction labels as [|l0 labels IH]; intros [|c cols] Hin;
    cbn [select] in Hin; try contradiction.
  destruct (p l0) eqn:Hp.
  - destruct Hin as [Heq|Hin].
    + inversion Heq; subst. split; [assumption | now left].
    + destruct (IH _ Hin) as [? ?]. split; [assumption | now right].
  - destruct (IH _ Hin) as [? ?]. split; [assumption | now right].
Qed.

Lemma select_absent names cols k :
  ~ In k names -> select (String.eqb k) names cols = [].
Proof.
  intros Hk. destruct (select (String.eqb k) names cols) as [|[n s] rest] eqn:Hs;
    [reflexivity|].
  destruct (select_sound (String.eqb k) names cols n s) as [Heq Hin].
  { rewrite Hs. now left. }
  apply String.eqb_eq in Heq. subst. contradiction.
Qed.

(** Under pairwise distinct names, a name designates at most one column,
    which carries that name. *)
Lemma select_unique names cols k :
  NoDup names ->
  select (String.eqb k) names cols = [] \/
  exists s, select (String.eqb k) names cols = [(k, s)].
Proof.
  intros Hnd. revert cols. induction Hnd as [|n names Hn Hnd IH]; intros cols.
  - left. reflexivity.
  - destruct cols as [|c cols]; [left; reflexivity|].
    cbn [select]. destruct (String.eqb_spec k n) as [->|Hne].
    + right. exists c. rewrite list_elem_of_In in Hn.
      now rewrite (select_absent names cols n Hn).
    + apply IH.
Qed.

Lemma select_present names cols k :
  length cols = length names -> In k names ->
  select (String.eqb k) names cols <> [].
Proof.
  revert cols. induction names as [|n names IH]; intros [|c cols] Hlen Hin;
    cbn in Hlen; try contradiction; try discriminate.
  cbn [select]. destruct (String.eqb_spec k n) as [->|Hne]; [discriminate|].
  destruct Hin as [->|Hin]; [congruence|].
  apply IH; [lia | assumption].
Qed.

Lemma rmap_pick_names names cols ks found :
  NoDup names ->
  rmap (pick label_matches_flat names cols) (List.map LStr ks) = Ok found ->
  List.map fst (concat found) = ks.
Proof.
  intros Hnd. revert found. induction ks as [|k ks IH]; intros found H.
  - cbn in H. now inversion H.
  - cbn [List.map rmap] in H. unfold pick at 1 in H.
    change (label_matches_flat (LStr k)) with (String.eqb k) in H.
    destruct (select_unique names cols k Hnd) as [Hs|[s Hs]]; rewrite Hs in H;
      [discriminate|].
    destruct (rmap _ (List.map LStr ks)) as [ys|e] eqn:Hr; [|discriminate].
    inversion H; subst. cbn. f_equal. now apply IH.
Qed.

Lemma rmap_pick_total names cols ks :
  length cols = length names -> Forall (fun k => In k names) ks ->
  exists found, rmap (pick label_matches_flat names cols) (List.map LStr ks) = Ok found.
Proof.
  intros Hlen Hall. induction Hall as [|k ks Hk Hall [ys IH]].
  - now exists [].
  - cbn [List.map rmap]. unfold pick at 1.
    change (label_matches_flat (LStr k)) with (String.eqb k).
    pose proof (select_present names cols k Hlen Hk) as Hne.
    destruct (select (String.eqb k) names cols) as [|x rest]; [congruence|].
    rewrite IH. eauto.
Qed.

Lemma getitem_list_names df names ks t :
  columns df = Index names -> NoDup names ->
  getitem_list df (List.map LStr ks) = Ok t ->
  columns t = Index ks /\ index t = index df.
Proof.
  intros Hc Hnd H. unfold getitem_list in H. rewrite Hc in H.
  destruct (rmap _ _) as [found|e] eqn:Hr; cbn [rbind] in H; [|discriminate].
  inversion H; subst. cbn [columns index].
  now rewrite (rmap_pick_names names (data df) ks found Hnd Hr).
Qed.

Lemma getitem_list_total df names ks :
  columns df = Index names -> length (data df) = length names ->
  Forall (fun k => In k names) ks ->
  exists t, getitem_list df (List.map LStr ks) = Ok t.
Proof.
  intros Hc Hlen Hall. unfold getitem_list. rewrite Hc.
  destruct (rmap_pick_total names (data df) ks Hlen Hall) as [found ->].
  cbn [rbind]. eauto.
Qed.

(** What the narrowing selects when [return_cols] is given. *)
Lemma narrow_some df_agg g rc r w :
  narrow df_agg g (Some rc) r w =
  if r then
    match g with
    | GList l => (getitem_list df_agg (List.map LStr (l ++ rc)), w)
    | GStr _ => (Raise TypeError, w)
    end
  else (getitem_list df_agg (List.map LStr rc), w).
Proof.
  unfold narrow, bind, lift, ret. destruct r; [|reflexivity].
  destruct g as [s|l]; cbn [py_add]; [reflexivity|].
  now rewrite List.map_app.
Qed.

(** ** GroupByAndAggregate: column narrowing *)

(** With [collapse_multicolumn] set, the frame that reaches the narrowing
    always has flat columns. *)
Lemma collapsed_is_flat df_agg w t w' :
  collapse_step true df_agg w = (Ok t, w') -> exists names, columns t = Index names.
Proof.
  unfold collapse_step. destruct (columns df_agg) as [names|tuples] eqn:Hc.
  - unfold bind, warn, ret. intros H. inversion H; subst. eauto.
  - unfold ret. intros H. inversion H; subst. cbn. eauto.
Qed.

(** C2, as stated, fails: when a dict key is no column the call returns
    the input table, whose columns are not the requested ones. *)
Lemma return_cols_ignored_on_short_circuit :
  groupby_and_agg sample (GList ["g"]) (AggDict [("y", One (Alias "sum"))])
                  true (Some ["x"]) {["reset_index" := PyBool false]} []
  = (Ok sample, [invalid_column_warning])
  /\ columns sample = Index ["g"; "x"]
  /\ columns sample <> Index ["x"].
Proof. repeat split. discriminate. Qed.

(** C2, amended.  Take a call with [return_cols] given that passes the
    validation of the aggregation spec, and whose aggregated frame reaches
    the narrowing with a flat column index of pairwise distinct names.
    Then every table the call returns has exactly the columns
    [groupby_cols + return_cols], in that order, when the index was reset,
    and exactly [return_cols] when it was not; and the call does return
    such a table, over the rows of the aggregated frame, as soon as these
    names are all columns of the aggregated frame (and [groupby_cols] is a
    list when the index was reset). *)
Theorem narrowed_columns
    (df : DataFrame) (groupby_cols : GroupbyCols) (agg_ : AggSpec)
    (collapse_multicolumn : bool) (rc : list string)
    (kwargs : gmap string pyval) (reset_index_ : bool)
    (w w1 : list string) (df_agg : DataFrame) (names : list string) :
  first_invalid_key df agg_ = None ->
  reset_index_kwarg kwargs = ret reset_index_ ->
  aggregated df groupby_cols agg_ collapse_multicolumn reset_index_ w = (Ok df_agg, w1) ->
  columns df_agg = Index names ->
  NoDup names ->
  let expected := if reset_index_ then groupby_keys groupby_cols ++ rc else rc in
  let outcome :=
    groupby_and_agg df groupby_cols agg_ collapse_multicolumn (Some rc) kwargs w in
  (forall t w', outcome = (Ok t, w') ->
     columns t = Index expected /\ index t = index df_agg /\ w' = w1)
  /\ ((reset_index_ = true -> exists l, groupby_cols = GList l) ->
      length (data df_agg) = length names ->
      Forall (fun k => In k names) expected ->
      exists t, outcome = (Ok t, w1) /\ columns t = Index expected).
Proof.
  intros Hv Hk Ha Hc Hnd expected outcome.
  assert (outcome = narrow df_agg groupby_cols (Some rc) reset_index_ w1) as Ho.
  { unfold outcome.
    rewrite (groupby_and_agg_stages df groupby_cols agg_ collapse_multicolumn
               (Some rc) kwargs reset_index_ w Hv Hk).
    now rewrite (bind_ok _ _ _ _ _ Ha). }
  rewrite Ho, narrow_some. subst expected. split.
  - intros t w' H. destruct reset_index_.
    + destruct groupby_cols as [s|l]; [discriminate|].
      inversion H; subst. cbn [groupby_keys].
      destruct (getitem_list_names df_agg names (l ++ rc) t Hc Hnd) as [? ?]; auto.
    + inversion H; subst.
      destruct (getitem_list_names df_agg names rc t Hc Hnd) as [? ?]; auto.
  - intros Hg Hlen Hall. destruct reset_index_.
    + destruct (Hg eq_refl) as [l ->]. cbn [groupby_keys] in *.
      destruct (getitem_list_total df_agg names (l ++ rc) Hc Hlen Hall) as [t Ht].
      exists t. split; [now rewrite Ht|].
      now destruct (getitem_list_names df_agg names (l ++ rc) t Hc Hnd Ht).
    + destruct (getitem_list_total df_agg names rc Hc Hlen Hall) as [t Ht].
      exists t. split; [now rewrite Ht|].
      now destruct (getitem_list_names df_agg names rc t Hc Hnd Ht).
Qed.

Lemma narrowed_columns_witness :
  let outcome :=
    groupby_and_agg sample (GList ["g"]) (AggDict [("x", Many [Alias "sum"; Alias "mean"])])
                    true (Some ["x_sum"]) ∅ [] in
  (exists t, outcome = (Ok t, []) /\ columns t = Index ["g"; "x_sum"])
  /\ columns (mkDataFrame (RangeIndex 2) (Index ["g"; "x_sum"]) [SStr ["a"; "b"]; SInt [4; 5]])
     = Index ["g"; "x_sum"].
Proof.
  pose proof (narrowed_columns sample (GList ["g"])
                (AggDict [("x", Many [Alias "sum"; Alias "mean"])]) true ["x_sum"]
                ∅ true [] []
                (mkDataFrame (RangeIndex 2) (Index ["g"; "x_sum"; "x_mean"])
                   [SStr ["a"; "b"]; SInt [4; 5]; SFloat [f64_of_Z 2; f64_of_Z 5]])
                ["g"; "x_sum"; "x_mean"]) as H.
  cbv zeta in H. destruct H as [Hany Hsome].
  - reflexivity.
  - reflexivity.
  - vm_compute. reflexivity.
  - reflexivity.
  - apply (bool_decide_unpack _). vm_compute. exact I.
  - cbv zeta. split.
    + apply Hsome.
      * intros _. exists ["g"]. reflexivity.
      * reflexivity.
      * constructor; [simpl; auto|]. constructor; [simpl; auto|]. constructor.
    + refine (proj1 (Hany (mkDataFrame (RangeIndex 2) (Index ["g"; "x_sum"])
                             [SStr ["a"; "b"]; SInt [4; 5]]) [] _)).
      vm_compute. reflexivity.
Defined.

(** The two side conditions are needed.  Without the collapse, a list of
    functions leaves a two-level column index, and selecting by name keeps
    both levels. *)
Example narrowing_keeps_both_levels :
  fst (groupby_and_agg sample (GList ["g"])
         (AggDict [("x", Many [Alias "sum"; Alias "mean"])]) false (Some ["x"]) ∅ [])
  = Ok (mkDataFrame (RangeIndex 2) (MultiIndex [("g", ""); ("x", "sum"); ("x", "mean")])
          [SStr ["a"; "b"]; SInt [4; 5]; SFloat [f64_of_Z 2; f64_of_Z 5]]).
Proof. reflexivity. Qed.

(** And when the collapse makes two columns share a name, a requested name
    brings both of them, once per request. *)
Example narrowing_repeats_shared_names :
  fst (groupby_and_agg
         (mkDataFrame (RangeIndex 2) (Index ["x_sum"; "x"]) [SStr ["a"; "b"]; SInt [1; 2]])
         (GList ["x_sum"]) (AggDict [("x", Many [Alias "sum"])])
         true (Some ["x_sum"]) ∅ [])
  = Ok (mkDataFrame (RangeIndex 2) (Index ["x_sum"; "x_sum"; "x_sum"; "x_sum"])
          [SStr ["a"; "b"]; SInt [1; 2]; SStr ["a"; "b"]; SInt [1; 2]]).
Proof. reflexivity. Qed.

(** ** Column assignment and removal on tables *)

Lemma select_ext {L} (p q : L -> bool) labels cols :
  (forall l, In l labels -> p l = q l) -> select p labels cols = select q labels cols.
Proof.
  revert cols. induction labels as [|l labels IH]; intros [|c cols] H; try reflexivity.
  cbn [select]. rewrite (H l) by now left.
  rewrite IH; [reflexivity|]. intros l' Hl'. apply H. now right.
Qed.

Lemma select_none {L} (p : L -> bool) labels cols :
  (forall l, In l labels -> p l = false) -> select p labels cols = [].
Proof.
  revert cols. induction labels as [|l labels IH]; intros [|c cols] H; try reflexivity.
  cbn [select]. rewrite (H l) by now left. apply IH. intros l' Hl'. apply H. now right.
Qed.

Lemma select_app {L} (p : L -> bool) l1 l2 c1 c2 :
  length c1 = length l1 ->
  select p (l1 ++ l2) (c1 ++ c2) = select p l1 c1 ++ select p l2 c2.
Proof.
  revert c1. induction l1 as [|l l1 IH]; intros [|c c1] Hlen; cbn in Hlen;
    try discriminate; [reflexivity|].
  cbn [app select]. rewrite IH by lia. now destruct (p l).
Qed.

Lemma select_select {L} (p q : L -> bool) labels cols :
  select p (List.map fst (select q labels cols)) (List.map snd (select q labels cols))
  = select (fun l => q l && p l) labels cols.
Proof.
  revert cols. induction labels as [|l labels IH]; intros [|c cols]; try reflexivity.
  cbn [select]. destruct (q l); cbn [List.map fst snd select andb]; now rewrite IH.
Qed.

Lemma select_length {L} (p : L -> bool) labels cols :
  length (List.map snd (select p labels cols))
  = length (List.map fst (select p labels cols)).
Proof. now rewrite !length_map. Qed.

Lemma select_replace_same name s names cols :
  forall n c, In (n, c) (select (String.eqb name) names (replace_cols name s names cols)) ->
              c = s.
Proof.
  revert cols. induction names as [|n0 names IH]; intros [|c0 cols] n c Hin;
    cbn [replace_cols select] in Hin; try contradiction.
  destruct (String.eqb_spec name n0) as [->|Hne].
  - rewrite String.eqb_refl in Hin. destruct Hin as [Heq|Hin]; [now inversion Heq|].
    eapply IH; eassumption.
  - eapply IH; eassumption.
Qed.

Lemma select_replace_other name s names cols n :
  n <> name ->
  select (String.eqb n) names (replace_cols name s names cols)
  = select (String.eqb n) names cols.
Proof.
  intros Hne. revert cols. induction names as [|n0 names IH]; intros [|c0 cols];
    try reflexivity.
  cbn [replace_cols select]. rewrite IH.
  destruct (String.eqb_spec n n0) as [->|?]; [|reflexivity].
  destruct (String.eqb_spec n0 name); [congruence | reflexivity].
Qed.

Lemma replace_cols_length name s names cols :
  length (replace_cols name s names cols) = length cols.
Proof.
  revert cols. induction names as [|n0 names IH]; intros [|c0 cols]; try reflexivity.
  cbn [replace_cols length]. now rewrite IH.
Qed.

Lemma in_columns_In name names : in_columns name (Index names) = true <-> In name names.
Proof.
  cbn [in_columns]. rewrite List.existsb_exists. split.
  - intros [x [Hx Heq]]. apply String.eqb_eq in Heq. now subst.
  - intros H. exists name. split; [assumption | apply String.eqb_refl].
Qed.

Lemma col_present df names n :
  columns df = Index names -> length (data df) = length names -> NoDup names ->
  In n names -> exists s, col df n = [(n, s)].
Proof.
  intros Hc Hlen Hnd Hin. unfold col. rewrite Hc. cbn [flat_names].
  destruct (select_unique names (data df) n Hnd) as [He|Hs]; [|assumption].
  now destruct (select_present names (data df) n Hlen Hin).
Qed.

Lemma col_absent df names n :
  columns df = Index names -> ~ In n names -> col df n = [].
Proof. intros Hc Hn. unfold col. rewrite Hc. now apply select_absent. Qed.

(** [df[name] = s] on a table: the result is a table again, [name] now
    designates [s], and every other name designates what it did. *)
Lemma setitem_table df name s :
  well_formed_table df ->
  exists df', setitem df name s = Ok df'
    /\ well_formed_table df'
    /\ index df' = index df
    /\ col df' name = [(name, s)]
    /\ forall n, n <> name -> col df' n = col df n.
Proof.
  unfold well_formed_table. destruct (columns df) as [names|] eqn:Hc; [|contradiction].
  intros [Hnd Hlen]. unfold setitem. rewrite Hc.
  destruct (in_columns name (Index names)) eqn:Hin.
  - eexists. split; [reflexivity|]. cbn [columns data index].
    rewrite replace_cols_length. repeat split; try assumption.
    + apply in_columns_In in Hin.
      destruct (col_present
                  (mkDataFrame (index df) (Index names) (replace_cols name s names (data df)))
                  names name eq_refl) as [s' Hs']; try assumption.
      { cbn [data]. now rewrite replace_cols_length. }
      rewrite Hs'. f_equal. f_equal.
      apply (select_replace_same name s names (data df) name s').
      unfold col in Hs'. cbn [columns flat_names data] in Hs'. rewrite Hs'. now left.
    + intros n Hne. unfold col. cbn [columns flat_names data]. rewrite Hc.
      now apply select_replace_other.
  - assert (~ In name names) as Hnot.
    { intros H. apply in_columns_In in H. congruence. }
    eexists. split; [reflexivity|]. cbn [columns data index].
    repeat split.
    + apply NoDup_app. repeat split; try assumption.
      * intros x Hx Hx'. apply list_elem_of_In in Hx.
        apply list_elem_of_singleton in Hx'. now subst.
      * apply NoDup_singleton.
    + rewrite !length_app. cbn. lia.
    + unfold col. cbn [columns flat_names data]. rewrite select_app by assumption.
      rewrite (select_absent names (data df) name Hnot). cbn [select app].
      now rewrite String.eqb_refl.
    + intros n Hne. unfold col. cbn [columns flat_names data]. rewrite Hc.
      cbn [flat_names]. rewrite select_app by assumption. cbn [select].
      destruct (String.eqb_spec n name); [congruence|]. now rewrite app_nil_r.
Qed.

(** [df.drop([d], axis=1)] on a table that has a column [d]: the result is
    a table again, [d] designates nothing in it, and every other name
    designates what it did. *)
Lemma drop_table df d :
  well_formed_table df -> col df d <> [] ->
  exists df', drop_columns df [LStr d] = Ok df'
    /\ well_formed_table df'
    /\ index df' = index df
    /\ col df' d = []
    /\ forall n, n <> d -> col df' n = col df n.
Proof.
  unfold well_formed_table. destruct (columns df) as [names|] eqn:Hc; [|contradiction].
  intros [Hnd Hlen] Hd. unfold drop_columns. rewrite Hc.
  assert (In d names) as Hin.
  { unfold col in Hd. rewrite Hc in Hd. cbn [flat_names] in Hd.
    destruct (select (String.eqb d) names (data df)) as [|[n s] rest] eqn:Hs; [congruence|].
    destruct (select_sound (String.eqb d) names (data df) n s) as [Heq Hn].
    { rewrite Hs. now left. }
    apply String.eqb_eq in Heq. now subst. }
  cbn [forallb]. change (label_matches_flat (LStr d)) with (String.eqb d).
  apply in_columns_In in Hin. cbn [in_columns] in Hin. rewrite Hin. cbn [andb].
  eexists. split; [reflexivity|]. cbn [columns data index].
  repeat split.
  - clear Hlen Hd Hin Hc. generalize (data df). induction Hnd as [|n names Hn Hnd IH];
      intros [|c cols]; cbn [select List.map]; try constructor.
    destruct (negb _); cbn [List.map fst]; [|apply IH].
    constructor; [|apply IH].
    intros Hx. apply Hn. apply list_elem_of_In. apply list_elem_of_In in Hx.
    apply List.in_map_iff in Hx as [[n' s'] [Heq Hx]]. cbn in Heq. subst n'.
    now destruct (select_sound _ _ _ _ _ Hx).
  - apply select_length.
  - unfold col. cbn [columns flat_names data]. rewrite select_select.
    apply select_none. intros l _. cbn [existsb label_matches_flat].
    rewrite orb_false_r. now destruct (String.eqb d l).
  - intros n Hne. unfold col. cbn [columns flat_names data]. rewrite Hc.
    cbn [flat_names]. rewrite select_select. apply select_ext. intros l _.
    cbn [existsb label_matches_flat]. rewrite orb_false_r.
    destruct (String.eqb_spec n l) as [<-|?]; [|now rewrite andb_false_r].
    destruct (String.eqb_spec d n); [congruence | reflexivity].
Qed.

Lemma getitem_str_col df n s :
  well_formed_table df -> col df n = [(n, s)] -> getitem_str df n = Ok (ObjSeries s).
Proof.
  unfold well_formed_table, col, getitem_str.
  destruct (columns df); [|contradiction]. cbn [flat_names]. now intros _ ->.
Qed.

Lemma getitem_str_absent df n :
  well_formed_table df -> col df n = [] -> getitem_str df n = Raise KeyError.
Proof.
  unfold well_formed_table, col, getitem_str.
  destruct (columns df); [|contradiction]. cbn [flat_names]. now intros _ ->.
Qed.

Lemma in_columns_col df n :
  well_formed_table df -> col df n = [] -> in_columns n (columns df) = false.
Proof.
  unfold well_formed_table. destruct (columns df) as [names|] eqn:Hc; [|contradiction].
  intros [Hnd Hlen] Hcol. destruct (in_columns n (Index names)) eqn:Hin; [|reflexivity].
  apply in_columns_In in Hin.
  destruct (col_present df names n Hc Hlen Hnd Hin) as [s Hs]. congruence.
Qed.

(** ** DeriveDateParts *)

Lemma datetime_labels_single names cols d :
  NoDup names ->
  datetime_labels (List.map LStr names) cols = [LStr d] ->
  exists l, select (String.eqb d) names cols = [(d, SDatetime l)].
Proof.
  intros Hnd. revert cols. induction Hnd as [|n names Hn Hnd IH]; intros [|c cols] H;
    cbn [List.map datetime_labels] in H; try discriminate.
  rewrite list_elem_of_In in Hn. cbn [select].
  destruct (is_datetime c) eqn:Hdt.
  - inversion H; subst. rewrite String.eqb_refl.
    destruct c; try discriminate. exists l.
    now rewrite (select_absent names cols d Hn).
  - destruct (IH cols H) as [l Hl]. exists l.
    destruct (String.eqb_spec d n) as [->|?]; [|assumption].
    destruct (select_sound (String.eqb n) names cols n (SDatetime l)) as [_ Hin].
    { rewrite Hl. now left. }
    contradiction.
Qed.

Lemma suffixed_name_differs d suffix : suffix <> "" -> d +:+ suffix <> d.
Proof.
  intros Hs Heq. apply (f_equal String.length) in Heq. rewrite str_length_app in Heq.
  destruct suffix; [congruence | cbn in Heq; lia].
Qed.

(** C8, as stated, fails: when the one date/time column [d] shares its
    name with another column, [df[d]] is a frame, which has no [.dt], and
    the derivation raises an attribute error whether the date columns are
    to be dropped or kept. *)
Lemma date_parts_shared_name_fails :
  let df := mkDataFrame (RangeIndex 1) (Index ["d"; "d"])
              [SDatetime [mkTimestamp 2018 2 1]; SInt [7]] in
  datetime_labels (columns_list (columns df)) (data df) = [LStr "d"]
  /\ create_date_parts df true = Raise AttributeError
  /\ create_date_parts df false = Raise AttributeError.
Proof. repeat split. Qed.

(** C8, amended.  On a table with pairwise distinct column names whose
    only date/time column is [d], the derivation succeeds whether the date
    columns are dropped or kept.  Either way the result has the integer
    columns [d_YEAR] and [d_MONTH], holding the years and the months of [d]
    row by row, and every column other than these three is what it was;
    [d] itself is absent when dropping and unchanged when keeping. *)
Theorem date_parts_columns (df : DataFrame) (d : string) :
  well_formed_table df ->
  datetime_labels (columns_list (columns df)) (data df) = [LStr d] ->
  exists dates df_drop df_keep,
    getitem_str df d = Ok (ObjSeries (SDatetime dates))
    /\ create_date_parts df true = Ok df_drop
    /\ create_date_parts df false = Ok df_keep
    /\ (forall t, t = df_drop \/ t = df_keep ->
          getitem_str t (d +:+ "_YEAR") = Ok (ObjSeries (SInt (List.map ts_year dates)))
          /\ getitem_str t (d +:+ "_MONTH") = Ok (ObjSeries (SInt (List.map ts_month dates)))
          /\ index t = index df
          /\ forall n, n <> d -> n <> d +:+ "_YEAR" -> n <> d +:+ "_MONTH" ->
                       getitem_str t n = getitem_str df n)
    /\ in_columns d (columns df_drop) = false
    /\ getitem_str df_drop d = Raise KeyError
    /\ in_columns d (columns df_keep) = true
    /\ getitem_str df_keep d = Ok (ObjSeries (SDatetime dates)).
Proof.
  intros Hwf Hdates.
  assert (exists dates, col df d = [(d, SDatetime dates)]) as [dates Hd].
  { unfold well_formed_table in Hwf. unfold col.
    destruct (columns df) as [names|]; [|contradiction].
    destruct Hwf as [Hnd _]. now apply datetime_labels_single. }
  pose proof (suffixed_name_differs d "_YEAR" ltac:(discriminate)) as HY.
  pose proof (suffixed_name_differs d "_MONTH" ltac:(discriminate)) as HM.
  assert (d +:+ "_YEAR" <> d +:+ "_MONTH") as HYM.
  { intros Heq. apply String.app_inj in Heq. discriminate. }
  destruct (setitem_table df (d +:+ "_YEAR") (SInt (List.map ts_year dates)) Hwf)
    as (df1 & Hset1 & Hwf1 & Hix1 & Hy1 & Ho1).
  destruct (setitem_table df1 (d +:+ "_MONTH") (SInt (List.map ts_month dates)) Hwf1)
    as (df2 & Hset2 & Hwf2 & Hix2 & Hm2 & Ho2).
  assert (col df1 d = [(d, SDatetime dates)]) as Hd1.
  { rewrite Ho1 by congruence. exact Hd. }
  assert (col df2 d = [(d, SDatetime dates)]) as Hd2.
  { rewrite Ho2 by congruence. exact Hd1. }
  assert (col df2 (d +:+ "_YEAR") = [(d +:+ "_YEAR", SInt (List.map ts_year dates))]) as Hy2.
  { rewrite Ho2 by congruence. exact Hy1. }
  destruct (drop_table df2 d Hwf2 ltac:(rewrite Hd2; discriminate))
    as (df3 & Hdrop & Hwf3 & Hix3 & Hd3 & Ho3).
  assert (date_parts_loop [LStr d] df = Ok df2) as Hloop.
  { cbn [date_parts_loop date_parts_of String.eqb Ascii.eqb Bool.eqb format_label].
    rewrite (getitem_str_col df d _ Hwf Hd). cbn [rbind dt_year].
    change (d +:+ "_" +:+ "YEAR") with (d +:+ "_YEAR"). rewrite Hset1. cbn [rbind].
    rewrite (getitem_str_col df1 d _ Hwf1 Hd1). cbn [rbind dt_month].
    change (d +:+ "_" +:+ "MONTH") with (d +:+ "_MONTH"). rewrite Hset2. reflexivity. }
  exists dates, df3, df2.
  split; [now apply getitem_str_col|].
  split; [unfold create_date_parts; rewrite Hdates, Hloop; exact Hdrop|].
  split; [unfold create_date_parts; rewrite Hdates, Hloop; reflexivity|].
  assert (forall t n, well_formed_table t -> col t n = col df n ->
                      index t = index df -> getitem_str t n = getitem_str df n) as Hsame.
  { intros t n Ht Hcol Hix. unfold well_formed_table in Ht, Hwf. unfold col in Hcol.
    unfold getitem_str. rewrite Hix.
    destruct (columns t); [|contradiction]. destruct (columns df); [|contradiction].
    cbn [flat_names] in Hcol. now rewrite Hcol. }
  split.
  { intros t [->| ->].
    - repeat split.
      + apply getitem_str_col; [assumption|]. rewrite Ho3 by congruence. exact Hy2.
      + apply getitem_str_col; [assumption|]. rewrite Ho3 by congruence. exact Hm2.
      + congruence.
      + intros n H1 H2 H3. apply Hsame; [assumption| |congruence].
        rewrite Ho3, Ho2, Ho1 by assumption. reflexivity.
    - repeat split.
      + now apply getitem_str_col.
      + now apply getitem_str_col.
      + congruence.
      + intros n H1 H2 H3. apply Hsame; [assumption| |congruence].
        rewrite Ho2, Ho1 by assumption. reflexivity. }
  split; [now apply in_columns_col|].
  split; [now apply getitem_str_absent|].
  split; [|now apply getitem_str_col].
  destruct (in_columns d (columns df2)) eqn:Hin; [reflexivity|].
  unfold well_formed_table in Hwf2. unfold col in Hd2.
  destruct (columns df2) as [names2|]; [|contradiction]. cbn [flat_names] in Hd2.
  assert (~ In d names2) as Hnot.
  { intros H. apply in_columns_In in H. congruence. }
  rewrite (select_absent names2 (data df2) d Hnot) in Hd2. discriminate.
Qed.

Lemma date_parts_columns_witness :
  exists dates df_drop df_keep,
    getitem_str sample_dates "d" = Ok (ObjSeries (SDatetime dates))
    /\ create_date_parts sample_dates true = Ok df_drop
    /\ create_date_parts sample_dates false = Ok df_keep
    /\ getitem_str df_drop "d_YEAR" = Ok (ObjSeries (SInt (List.map ts_year dates)))
    /\ getitem_str df_keep "d_MONTH" = Ok (ObjSeries (SInt (List.map ts_month dates)))
    /\ in_columns "d" (columns df_drop) = false
    /\ in_columns "d" (columns df_keep) = true.
Proof.
  destruct (date_parts_columns sample_dates "d")
    as (dates & t1 & t2 & H0 & H1 & H2 & Hboth & H3 & _ & H4 & _).
  - split; [|reflexivity].
    apply (bool_decide_unpack _). vm_compute. exact I.
  - reflexivity.
  - exists dates, t1, t2.
    pose proof (proj1 (Hboth t1 (or_introl eq_refl))) as Hy.
    pose proof (proj1 (proj2 (Hboth t2 (or_intror eq_refl)))) as Hm.
    repeat split; assumption.
Defined.

(** * Further properties *)

(** ** TableLoader: file types and what is read *)

(** X1.  With no level or one of the four levels, a file type that is not
    parquet or csv once its leading dot is stripped is rejected with the
    file-type error, and no reader is called.  Only one dot is stripped,
    so [..csv] is rejected too. *)
Theorem load_data_unsupported_file_type
    (pd_read_parquet pd_read_csv : PathArg -> result DataFrame)
    (self : DirectoryMapper) (file_name : string) (level : option string) :
  (level = None \/
   exists l, level = Some l /\ In l ["raw"; "interim"; "processed"; "external"]) ->
  (forall ext, ext <> "parquet" -> ext <> "csv" ->
     load_data pd_read_parquet pd_read_csv self file_name level ("." +:+ ext)
     = Raise (ValueError "Provide valid file type"))
  /\ (forall c rest, c <> "."%char ->
        String c rest <> "parquet" -> String c rest <> "csv" ->
        load_data pd_read_parquet pd_read_csv self file_name level (String c rest)
        = Raise (ValueError "Provide valid file type")).
Proof.
  intros Hl.
  assert (forall ft, ft <> "parquet" -> ft <> "csv" ->
          (in_file_name <-
             match level with
             | None => Ok (AsStr (file_name +:+ "." +:+ ft))
             | Some level =>
                 if String.eqb level "raw"
                 then Ok (AsPath (raw_data_dir self // (file_name +:+ "." +:+ ft)))
                 else if String.eqb level "interim"
                 then Ok (AsPath (interim_data_dir self // (file_name +:+ "." +:+ ft)))
                 else if String.eqb level "processed"
                 then Ok (AsPath (processed_data_dir self // (file_name +:+ "." +:+ ft)))
                 else if String.eqb level "external"
                 then Ok (AsPath (external_data_dir self // (file_name +:+ "." +:+ ft)))
                 else Raise (ValueError "Please provide valid level")
             end ;;
           if String.eqb ft "parquet" then pd_read_parquet in_file_name
           else if String.eqb ft "csv" then pd_read_csv in_file_name
           else Raise (ValueError "Provide valid file type"))%py
          = Raise (ValueError "Provide valid file type")) as Hbody.
  { intros ft Hp Hc.
    apply String.eqb_neq in Hp. apply String.eqb_neq in Hc.
    destruct Hl as [->|[l [-> Hin]]].
    - cbn [rbind]. now rewrite Hp, Hc.
    - cbn in Hin. destruct Hin as [<-|[<-|[<-|[<-|[]]]]]; cbn; now rewrite Hp, Hc. }
  split.
  - intros ext Hp Hc. exact (Hbody ext Hp Hc).
  - intros c rest Hdot Hp Hc. unfold load_data.
    apply Ascii.eqb_neq in Hdot. rewrite Hdot. cbn [rbind].
    exact (Hbody (String c rest) Hp Hc).
Qed.

Lemma load_data_unsupported_file_type_witness :
  load_data (fun _ => Ok sample) (fun _ => Ok sample)
            (DirectoryMapper_init "elo" default_base_dir) "train" (Some "raw") "..csv"
  = Raise (ValueError "Provide valid file type")
  /\ load_data (fun _ => Ok sample) (fun _ => Ok sample)
            (DirectoryMapper_init "elo" default_base_dir) "train" None "xlsx"
     = Raise (ValueError "Provide valid file type").
Proof.
  split.
  - refine (proj1 (load_data_unsupported_file_type (fun _ => Ok sample) (fun _ => Ok sample)
                     (DirectoryMapper_init "elo" default_base_dir) "train" (Some "raw") _)
              ".csv" _ _).
    + right. exists "raw". split; [reflexivity | simpl; auto].
    + discriminate.
    + discriminate.
  - refine (proj2 (load_data_unsupported_file_type (fun _ => Ok sample) (fun _ => Ok sample)
                     (DirectoryMapper_init "elo" default_base_dir) "train" None _)
              "x"%char "lsx" _ _ _).
    + left. reflexivity.
    + discriminate.
    + discriminate.
    + discriminate.
Defined.

(** X2.  A leading dot on the file type changes nothing: for a type that
    does not itself begin with a dot, [.type] and [type] give the same
    outcome, whatever the level and the readers. *)
Theorem load_data_leading_dot
    (pd_read_parquet pd_read_csv : PathArg -> result DataFrame)
    (self : DirectoryMapper) (file_name : string) (level : option string)
    (c : ascii) (rest : string) :
  c <> "."%char ->
  load_data pd_read_parquet pd_read_csv self file_name level ("." +:+ String c rest)
  = load_data pd_read_parquet pd_read_csv self file_name level (String c rest).
Proof.
  intros Hdot. apply Ascii.eqb_neq in Hdot. unfold load_data.
  rewrite Hdot. reflexivity.
Qed.

Lemma load_data_leading_dot_witness :
  load_data (fun _ => Ok sample) (fun _ => Raise KeyError)
            (DirectoryMapper_init "elo" default_base_dir) "train" (Some "raw") ".parquet"
  = load_data (fun _ => Ok sample) (fun _ => Raise KeyError)
            (DirectoryMapper_init "elo" default_base_dir) "train" (Some "raw") "parquet".
Proof.
  apply (load_data_leading_dot (fun _ => Ok sample) (fun _ => Raise KeyError)
           (DirectoryMapper_init "elo" default_base_dir) "train" (Some "raw")
           "p"%char "arquet").
  discriminate.
Defined.

(** X3.  [load_data] returns a table only as the result of a reader: when
    it succeeds, the file type was parquet or csv (with or without the
    dot), the level was absent or one of the four, and the table is what
    the matching reader returned for the resolved path. *)
Theorem load_data_returns_what_was_read
    (pd_read_parquet pd_read_csv : PathArg -> result DataFrame)
    (self : DirectoryMapper) (file_name : string) (level : option string)
    (file_type : string) (t : DataFrame) :
  load_data pd_read_parquet pd_read_csv self file_name level file_type = Ok t ->
  exists ext path,
    In (file_type, ext) stripped_file_types
    /\ (level = None /\ path = AsStr (file_name +:+ "." +:+ ext)
        \/ exists l dir, level = Some l /\ In (l, dir) (data_levels self)
                         /\ path = AsPath (dir // (file_name +:+ "." +:+ ext)))
    /\ (if String.eqb ext "parquet" then pd_read_parquet else pd_read_csv) path = Ok t.
Proof.
  intros H. unfold load_data in H.
  destruct file_type as [|c rest]; [discriminate|].
  set (ft := if Ascii.eqb c "." then rest else String c rest).
  assert ((if Ascii.eqb c "." then Ok rest else Ok (String c rest)) = Ok ft) as Hft
    by (unfold ft; now destruct (Ascii.eqb c ".")).
  rewrite Hft in H. cbn [rbind] in H.
  assert (exists path,
            (level = None /\ path = AsStr (file_name +:+ "." +:+ ft)
             \/ exists l dir, level = Some l /\ In (l, dir) (data_levels self)
                              /\ path = AsPath (dir // (file_name +:+ "." +:+ ft)))
            /\ (if String.eqb ft "parquet" then pd_read_parquet path
                else if String.eqb ft "csv" then pd_read_csv path
                else Raise (ValueError "Provide valid file type")) = Ok t)
    as (path & Hpath & Hread).
  { destruct level as [l|].
    - destruct (String.eqb_spec l "raw") as [->|].
      { eexists. split; [|exact H]. right. exists "raw", (raw_data_dir self).
        split; [reflexivity|]. split; [cbn; auto|reflexivity]. }
      destruct (String.eqb_spec l "interim") as [->|].
      { eexists. split; [|exact H]. right. exists "interim", (interim_data_dir self).
        split; [reflexivity|]. split; [cbn; auto|reflexivity]. }
      destruct (String.eqb_spec l "processed") as [->|].
      { eexists. split; [|exact H]. right. exists "processed", (processed_data_dir self).
        split; [reflexivity|]. split; [cbn; auto|reflexivity]. }
      destruct (String.eqb_spec l "external") as [->|].
      { eexists. split; [|exact H]. right. exists "external", (external_data_dir self).
        split; [reflexivity|]. split; [cbn; auto 6|reflexivity]. }
      discriminate.
    - eexists. split; [left; split; reflexivity | exact H]. }
  assert (In (String c rest, ft) stripped_file_types /\
          (if String.eqb ft "parquet" then pd_read_parquet else pd_read_csv) path = Ok t)
    as [Hin Hok].
  { destruct (String.eqb_spec ft "parquet") as [Heq|Hnp].
    - split; [|exact Hread]. unfold ft in *.
      destruct (Ascii.eqb_spec c ".") as [->|]; rewrite Heq; cbn; auto 6.
    - destruct (String.eqb_spec ft "csv") as [Heq|Hnc]; [|discriminate].
      split; [|exact Hread]. unfold ft in *.
      destruct (Ascii.eqb_spec c ".") as [->|]; rewrite Heq; cbn; auto 6. }
  exists ft, path. auto.
Qed.

Lemma load_data_returns_what_was_read_witness :
  exists ext path,
    In (".csv", ext) stripped_file_types
    /\ (if String.eqb ext "parquet"
        then (fun _ : PathArg => Raise KeyError) else (fun _ => Ok sample)) path
       = Ok sample.
Proof.
  destruct (load_data_returns_what_was_read (fun _ => Raise KeyError) (fun _ => Ok sample)
              (DirectoryMapper_init "elo" default_base_dir) "train" (Some "raw") ".csv"
              sample) as (ext & path & Hin & _ & Hread).
  - reflexivity.
  - exists ext, path. split; assumption.
Defined.

(** ** PathMapper *)

Lemma mapped_dirs_suffixes project_name base :
  let self := DirectoryMapper_init project_name base in
  mapped_dirs self
  = List.map (fun suffix => mkPath (root (project_dir self))
                                   (parts (project_dir self) ++ suffix))
      [[]; ["configs"]; ["sql"]; ["data"]; ["data"; "raw"]; ["data"; "interim"];
       ["data"; "processed"]; ["data"; "external"]; ["models"]; ["reports"];
       ["reports"; "data"]; ["reports"; "figures"]; ["reports"; "predictions"]].
Proof.
  unfold mapped_dirs, DirectoryMapper_init.
  cbn [project_dir config_path sql_dir data_dir raw_data_dir interim_data_dir
       processed_data_dir external_data_dir model_dir output_dir output_data_dir
       output_figs_dir output_pred_dir].
  generalize (base // project_name). intros [r ps].
  cbn [List.map root parts]. rewrite app_nil_r.
  assert (forall p s, no_slash s = true -> (2 <= String.length s)%nat ->
                      p // s = mkPath (root p) (parts p ++ [s])) as Hjoin
    by apply path_join_plain.
  rewrite !Hjoin by (try reflexivity; vm_compute; lia).
  cbn [root parts]. rewrite <- !app_assoc. reflexivity.
Qed.

(** X4.  Whatever the project name and the base directory, the thirteen
    directories of a mapper are pairwise distinct, and each of them is the
    project directory or lies below it: same root, and the components of
    the project directory followed by its own. *)
Theorem mapped_dirs_distinct (project_name : string) (base : Path) :
  let self := DirectoryMapper_init project_name base in
  NoDup (mapped_dirs self)
  /\ length (mapped_dirs self) = 13%nat
  /\ List.Forall (fun p => root p = root (project_dir self) /\
                           exists suffix, parts p = parts (project_dir self) ++ suffix)
                 (mapped_dirs self).
Proof.
  intros self. unfold self. rewrite mapped_dirs_suffixes. cbv zeta.
  set (pd := project_dir (DirectoryMapper_init project_name base)).
  split; [|split].
  - assert (Inj (=) (=) (fun suffix => mkPath (root pd) (parts pd ++ suffix))) as Hinj.
    { intros s1 s2 Heq. inversion Heq as [Hparts].
      now apply app_inv_head in Hparts. }
    apply (NoDup_fmap_2 _).
    apply (bool_decide_unpack _). vm_compute. exact I.
  - reflexivity.
  - apply List.Forall_forall. intros p Hin.
    apply List.in_map_iff in Hin as [suffix [<- _]]. cbn [root parts]. eauto.
Qed.

(** ** GroupByAndAggregate: warnings and the shape of the columns *)













(** ** GroupByAndAggregate: missing columns *)

Lemma rmap_raise {A B} (f : A -> result B) (l : list A) (e : exn) :
  (forall x, In x l -> (exists y, f x = Ok y) \/ f x = Raise e) ->
  (exists x, In x l /\ f x = Raise e) ->
  rmap f l = Raise e.
Proof.
  induction l as [|x l IH]; intros Hall [x0 [Hin Hx0]]; [contradiction|].
  cbn [rmap]. destruct (Hall x (or_introl eq_refl)) as [[y Hy]|Hx].
  - rewrite Hy. destruct Hin as [->|Hin]; [congruence|].
    rewrite IH; [reflexivity | intros; apply Hall; now right | eauto].
  - now rewrite Hx.
Qed.

Lemma column_1d_table df k :
  well_formed_table df ->
  (exists s, column_1d df k = Ok s) \/ column_1d df k = Raise KeyError.
Proof.
  intros Hwf. unfold column_1d, getitem_str. unfold well_formed_table in Hwf.
  destruct (columns df) as [names|]; [|contradiction]. destruct Hwf as [Hnd _].
  destruct (select_unique names (data df) k Hnd) as [->|[s ->]]; eauto.
Qed.

Lemma column_1d_missing df k :
  in_columns k (columns df) = false -> column_1d df k = Raise KeyError.
Proof.
  intros Hk. unfold column_1d, getitem_str.
  destruct (columns df) as [names|tuples]; cbn [in_columns] in Hk.
  - rewrite select_none; [reflexivity|]. intros l Hl.
    destruct (String.eqb k l) eqn:Heq; [|reflexivity].
    assert (existsb (String.eqb k) names = true); [|congruence].
    apply List.existsb_exists. eauto.
  - rewrite select_none; [reflexivity|]. intros l Hl.
    destruct (String.eqb k (fst l)) eqn:Heq; [|reflexivity].
    assert (existsb (fun t => String.eqb k (fst t)) tuples = true); [|congruence].
    apply List.existsb_exists. eauto.
Qed.

Lemma group_key_table df k :
  well_formed_table df ->
  index_levels (index df) k = [] ->
  (exists s, group_key df k = Ok s) \/ group_key df k = Raise KeyError.
Proof.
  intros Hwf Hix. unfold group_key. rewrite Hix.
  destruct (in_columns k (columns df)); [now apply column_1d_table | now right].
Qed.

Lemma group_key_missing df k :
  in_columns k (columns df) = false ->
  index_levels (index df) k = [] ->
  group_key df k = Raise KeyError.
Proof. intros Hk Hix. unfold group_key. now rewrite Hk, Hix. Qed.

Lemma keys_by_name df g :
  (forall l, g = GList l -> length l <> nrows df) ->
  keys_taken_as_values df g = false.
Proof.
  intros Hlen. destruct g as [s|l]; [reflexivity|]. cbn [keys_taken_as_values].
  apply andb_false_iff. left. apply Nat.eqb_neq. now apply Hlen.
Qed.

(** X6.  Take a table none of whose row-index levels is named like a
    grouping column (a table with a plain range index, say), and grouping
    columns given as a string, or as a list that is not as long as the
    table.  Then a grouping column that is no column of the table makes a
    call that passes the validation fail with a key error, raised by the
    grouping itself: no warning is emitted and nothing is aggregated. *)
Theorem missing_groupby_col_key_error
    (df : DataFrame) (groupby_cols : GroupbyCols) (agg_ : AggSpec)
    (collapse_multicolumn : bool) (return_cols : option (list string))
    (kwargs : gmap string pyval) (reset_index_ : bool) (w : list string) :
  well_formed_table df ->
  (forall k, In k (groupby_keys groupby_cols) -> index_levels (index df) k = []) ->
  (forall l, groupby_cols = GList l -> length l <> nrows df) ->
  first_invalid_key df agg_ = None ->
  reset_index_kwarg kwargs = ret reset_index_ ->
  (exists k, In k (groupby_keys groupby_cols) /\ in_columns k (columns df) = false) ->
  groupby_and_agg df groupby_cols agg_ collapse_multicolumn return_cols kwargs w
  = (Raise KeyError, w).
Proof.
  intros Hwf Hix Hlen Hv Hk [k [Hin Hmiss]].
  rewrite (groupby_and_agg_stages df groupby_cols agg_ collapse_multicolumn
             return_cols kwargs reset_index_ w Hv Hk).
  assert (pd_groupby_agg df (groupby_keys groupby_cols) agg_ = Raise KeyError) as Hg.
  { unfold pd_groupby_agg.
    destruct (groupby_keys groupby_cols) as [|k0 keys] eqn:Hkeys; [contradiction|].
    rewrite (rmap_raise (group_key df) (k0 :: keys) KeyError); [reflexivity| |].
    - intros x Hx. apply group_key_table; auto.
    - exists k. split; [assumption | apply group_key_missing; auto]. }
  unfold aggregated, aggregate, bind, lift.
  now rewrite (keys_by_name df groupby_cols Hlen), Hg.
Qed.

Lemma missing_groupby_col_key_error_witness :
  groupby_and_agg sample (GList ["g"; "h"]) (AggDict [("x", One (Alias "sum"))])
                  true None {["reset_index" := PyBool false]} []
  = (Raise KeyError, []).
Proof.
  apply (missing_groupby_col_key_error sample (GList ["g"; "h"])
           (AggDict [("x", One (Alias "sum"))]) true None
           {["reset_index" := PyBool false]} false []).
  - split; [|reflexivity]. apply (bool_decide_unpack _). vm_compute. exact I.
  - reflexivity.
  - intros l Hl. inversion Hl. discriminate.
  - reflexivity.
  - reflexivity.
  - exists "h". split; [simpl; auto | reflexivity].
Defined.

Lemma rmap_pick_missing names cols ks :
  (exists k, In k ks /\ ~ In k names) ->
  rmap (pick label_matches_flat names cols) (List.map LStr ks) = Raise KeyError.
Proof.
  intros [k [Hin Hk]]. apply rmap_raise.
  - intros x _. unfold pick. destruct (select _ names cols); eauto.
  - exists (LStr k). split; [now apply List.in_map|].
    unfold pick. change (label_matches_flat (LStr k)) with (String.eqb k).
    now rewrite (select_absent names cols k Hk).
Qed.

(** X7.  When the aggregated frame reaches the narrowing with flat
    columns and one of the names to select ([groupby_cols + return_cols]
    with the index reset, [return_cols] without) is none of them, the call
    fails with a key error. *)
Theorem missing_return_col_key_error
    (df : DataFrame) (groupby_cols : GroupbyCols) (agg_ : AggSpec)
    (collapse_multicolumn : bool) (rc : list string)
    (kwargs : gmap string pyval) (reset_index_ : bool)
    (w w1 : list string) (df_agg : DataFrame) (names : list string) :
  first_invalid_key df agg_ = None ->
  reset_index_kwarg kwargs = ret reset_index_ ->
  aggregated df groupby_cols agg_ collapse_multicolumn reset_index_ w = (Ok df_agg, w1) ->
  columns df_agg = Index names ->
  (reset_index_ = true -> exists l, groupby_cols = GList l) ->
  (exists k, In k (if reset_index_ then groupby_keys groupby_cols ++ rc else rc)
             /\ ~ In k names) ->
  groupby_and_agg df groupby_cols agg_ collapse_multicolumn (Some rc) kwargs w
  = (Raise KeyError, w1).
Proof.
  intros Hv Hk Ha Hc Hg Hmiss.
  rewrite (groupby_and_agg_stages df groupby_cols agg_ collapse_multicolumn
             (Some rc) kwargs reset_index_ w Hv Hk).
  rewrite (bind_ok _ _ _ _ _ Ha), narrow_some.
  destruct reset_index_.
  - destruct (Hg eq_refl) as [l ->]. cbn [groupby_keys] in Hmiss.
    unfold getitem_list. rewrite Hc.
    now rewrite (rmap_pick_missing names (data df_agg) (l ++ rc) Hmiss).
  - unfold getitem_list. rewrite Hc.
    now rewrite (rmap_pick_missing names (data df_agg) rc Hmiss).
Qed.

Lemma missing_return_col_key_error_witness :
  groupby_and_agg sample (GList ["g"]) (AggDict [("x", Many [Alias "sum"; Alias "mean"])])
                  true (Some ["x"]) ∅ []
  = (Raise KeyError, []).
Proof.
  apply (missing_return_col_key_error sample (GList ["g"])
           (AggDict [("x", Many [Alias "sum"; Alias "mean"])]) true ["x"] ∅ true [] []
           (mkDataFrame (RangeIndex 2) (Index ["g"; "x_sum"; "x_mean"])
              [SStr ["a"; "b"]; SInt [4; 5]; SFloat [f64_of_Z 2; f64_of_Z 5]])
           ["g"; "x_sum"; "x_mean"]).
  - reflexivity.
  - reflexivity.
  - vm_compute. reflexivity.
  - reflexivity.
  - intros _. exists ["g"]. reflexivity.
  - exists "x". split; [simpl; auto|].
    simpl. intros [H|[H|[H|[]]]]; discriminate.
Defined.

(** ** GroupByAndAggregate: no narrowing *)

Lemma select_combine names cols n s :
  NoDup names -> In (n, s) (combine names cols) ->
  select (String.eqb n) names cols = [(n, s)].
Proof.
  intros Hnd. revert cols. induction Hnd as [|n0 names Hn0 Hnd IH]; intros [|c cols] Hin;
    cbn [combine] in Hin; try contradiction.
  rewrite list_elem_of_In in Hn0. cbn [select]. destruct Hin as [Heq|Hin].
  - inversion Heq; subst. rewrite String.eqb_refl.
    now rewrite (select_absent names cols n Hn0).
  - destruct (String.eqb_spec n n0) as [->|?]; [|now apply IH].
    apply List.in_combine_l in Hin. contradiction.
Qed.

Lemma rmap_pick_all names cols (prs : list (string * Series)) :
  (forall p, In p prs -> select (String.eqb (fst p)) names cols = [p]) ->
  rmap (pick label_matches_flat names cols) (List.map LStr (List.map fst prs))
  = Ok (List.map (fun p => [p]) prs).
Proof.
  induction prs as [|p prs IH]; intros H; [reflexivity|].
  cbn [List.map rmap]. unfold pick at 1.
  change (label_matches_flat (LStr (fst p))) with (String.eqb (fst p)).
  rewrite (H p (or_introl eq_refl)).
  rewrite IH; [reflexivity|]. intros q Hq. apply H. now right.
Qed.

Lemma concat_singletons {A} (l : list A) : concat (List.map (fun p => [p]) l) = l.
Proof. induction l as [|x l IH]; [reflexivity|]. cbn. now rewrite IH. Qed.

Lemma getitem_list_all df :
  well_formed_table df ->
  getitem_list df (columns_list (columns df)) = Ok df.
Proof.
  unfold well_formed_table. destruct df as [ix c cols]. cbn [columns data index].
  destruct c as [names|]; [|contradiction]. intros [Hnd Hlen].
  unfold getitem_list. cbn [columns data index columns_list].
  assert (names = List.map fst (combine names cols)) as Hn.
  { clear Hnd. revert cols Hlen. induction names as [|n names IH]; intros [|c cols] Hlen;
      cbn in Hlen; try discriminate; [reflexivity|].
    cbn. f_equal. apply IH. lia. }
  assert (cols = List.map snd (combine names cols)) as Hc.
  { clear Hnd Hn. revert cols Hlen. induction names as [|n names IH]; intros [|c cols] Hlen;
      cbn in Hlen; try discriminate; [reflexivity|].
    cbn. f_equal. apply IH. lia. }
  rewrite Hn at 2. rewrite (rmap_pick_all names cols (combine names cols)).
  - cbn [rbind]. rewrite concat_singletons. now rewrite <- Hn, <- Hc.
  - intros [n s] Hin. cbn [fst]. now apply select_combine.
Qed.

(** X8.  With [return_cols] left to [None], a call whose aggregated frame
    is a table (flat, pairwise distinct column names) returns that frame
    as it is: all its columns, in their order, and the same rows. *)
Theorem no_return_cols_returns_aggregated
    (df : DataFrame) (groupby_cols : GroupbyCols) (agg_ : AggSpec)
    (collapse_multicolumn : bool) (kwargs : gmap string pyval) (reset_index_ : bool)
    (w w1 : list string) (df_agg : DataFrame) :
  first_invalid_key df agg_ = None ->
  reset_index_kwarg kwargs = ret reset_index_ ->
  aggregated df groupby_cols agg_ collapse_multicolumn reset_index_ w = (Ok df_agg, w1) ->
  well_formed_table df_agg ->
  groupby_and_agg df groupby_cols agg_ collapse_multicolumn None kwargs w
  = (Ok df_agg, w1).
Proof.
  intros Hv Hk Ha Hwf.
  rewrite (groupby_and_agg_stages df groupby_cols agg_ collapse_multicolumn
             None kwargs reset_index_ w Hv Hk).
  rewrite (bind_ok _ _ _ _ _ Ha). unfold narrow, bind, ret, lift.
  now rewrite (getitem_list_all df_agg Hwf).
Qed.

Lemma no_return_cols_returns_aggregated_witness :
  groupby_and_agg sample (GStr "g") (AggFunc (Alias "max")) false None ∅ []
  = (Ok (mkDataFrame (RangeIndex 2) (Index ["g"; "x"]) [SStr ["a"; "b"]; SInt [3; 5]]), []).
Proof.
  apply (no_return_cols_returns_aggregated sample (GStr "g") (AggFunc (Alias "max"))
           false ∅ true [] []).
  - reflexivity.
  - reflexivity.
  - vm_compute. reflexivity.
  - split; [|reflexivity]. apply (bool_decide_unpack _). vm_compute. exact I.
Defined.

(** ** DateEnricher: the date columns of a table *)

Lemma datetime_labels_names names cols :
  datetime_labels (List.map LStr names) cols = List.map LStr (date_names names cols).
Proof.
  revert cols. induction names as [|n names IH]; intros [|c cols]; try reflexivity.
  cbn [List.map datetime_labels date_names]. rewrite IH. now destruct (is_datetime c).
Qed.

Lemma datetime_labels_table df :
  well_formed_table df ->
  datetime_labels (columns_list (columns df)) (data df) = List.map LStr (dates_of df).
Proof.
  unfold well_formed_table, dates_of. destruct (columns df); [|contradiction].
  intros _. apply datetime_labels_names.
Qed.

Lemma date_names_in names cols c : In c (date_names names cols) -> In c names.
Proof.
  revert cols. induction names as [|n names IH]; intros [|s cols] H;
    cbn [date_names] in H; try contradiction.
  destruct (is_datetime s); [destruct H as [->|H]|]; [now left | right; eauto..].
Qed.

Lemma date_names_NoDup names cols : NoDup names -> NoDup (date_names names cols).
Proof.
  intros Hnd. revert cols. induction Hnd as [|n names Hn Hnd IH]; intros [|s cols];
    cbn [date_names]; try constructor.
  destruct (is_datetime s); [|apply IH]. constructor; [|apply IH].
  rewrite list_elem_of_In in *. intros H. apply Hn. eapply date_names_in, H.
Qed.

Lemma date_names_select names cols c :
  NoDup names -> In c (date_names names cols) ->
  exists l, select (String.eqb c) names cols = [(c, SDatetime l)].
Proof.
  intros Hnd. revert cols. induction Hnd as [|n names Hn Hnd IH]; intros [|s cols] H;
    cbn [date_names] in H; try contradiction.
  rewrite list_elem_of_In in Hn. cbn [select].
  destruct (String.eqb_spec c n) as [->|Hne].
  - rewrite (select_absent names cols n Hn).
    destruct (is_datetime s) eqn:Hs.
    + destruct s; try discriminate. eauto.
    + apply date_names_in in H. contradiction.
  - apply IH. destruct (is_datetime s); [destruct H as [->|H]|]; congruence.
Qed.

Lemma dates_of_col df c :
  well_formed_table df -> In c (dates_of df) ->
  exists l, col df c = [(c, SDatetime l)].
Proof.
  unfold well_formed_table, dates_of, col. destruct (columns df); [|contradiction].
  intros [Hnd _]. now apply date_names_select.
Qed.

Lemma dates_of_NoDup df : well_formed_table df -> NoDup (dates_of df).
Proof.
  unfold well_formed_table, dates_of. destruct (columns df); [|contradiction].
  intros [Hnd _]. now apply date_names_NoDup.
Qed.

Lemma date_names_replace name s names cols :
  is_datetime s = false -> ~ In name (date_names names cols) ->
  date_names names (replace_cols name s names cols) = date_names names cols.
Proof.
  intros Hs. revert cols. induction names as [|n names IH]; intros [|c cols] Hn;
    try reflexivity.
  cbn [replace_cols date_names] in *.
  destruct (String.eqb_spec n name) as [->|Hne].
  - rewrite Hs. destruct (is_datetime c).
    + destruct Hn. now left.
    + now apply IH.
  - destruct (is_datetime c); [f_equal|]; apply IH; intros H; apply Hn;
      [now right | assumption].
Qed.

Lemma date_names_app names cols n s :
  length cols = length names ->
  date_names (names ++ [n]) (cols ++ [s])
  = date_names names cols ++ (if is_datetime s then [n] else []).
Proof.
  revert cols. induction names as [|n0 names IH]; intros [|c cols] Hlen;
    cbn in Hlen; try discriminate.
  - reflexivity.
  - cbn [app date_names]. rewrite IH by lia. now destruct (is_datetime c).
Qed.

(** Assigning a column that is no date to a name that holds no date
    leaves the date columns as they are. *)
Lemma setitem_dates_of df name s df' :
  well_formed_table df -> setitem df name s = Ok df' ->
  is_datetime s = false -> ~ In name (dates_of df) ->
  dates_of df' = dates_of df.
Proof.
  unfold well_formed_table, dates_of, setitem.
  destruct (columns df) as [names|] eqn:Hc; [|contradiction].
  intros [_ Hlen] H Hs Hn. cbn [flat_names] in *.
  destruct (in_columns name (Index names)); inversion H; subst; cbn [columns data flat_names].
  - now apply date_names_replace.
  - rewrite date_names_app by assumption. rewrite Hs. apply app_nil_r.
Qed.

Lemma replace_cols_same name s names cols :
  (forall n c, In (n, c) (select (String.eqb name) names cols) -> c = s) ->
  replace_cols name s names cols = cols.
Proof.
  revert cols. induction names as [|n0 names IH]; intros [|c0 cols] H; try reflexivity.
  cbn [replace_cols select] in *. destruct (String.eqb_spec n0 name) as [->|Hne].
  - rewrite String.eqb_refl in H. rewrite (H name c0) by now left.
    f_equal. apply IH. intros n c Hin. apply (H n c). now right.
  - destruct (String.eqb_spec name n0); [congruence|]. f_equal. now apply IH.
Qed.

(** Assigning to a name the column it already holds changes nothing. *)
Lemma setitem_same df name s :
  well_formed_table df -> col df name = [(name, s)] -> setitem df name s = Ok df.
Proof.
  unfold well_formed_table, col, setitem. destruct df as [ix c cols].
  cbn [columns data index]. destruct c as [names|]; [|contradiction].
  cbn [flat_names]. intros [Hnd Hlen] Hcol.
  assert (In name names) as Hin.
  { destruct (select_sound (String.eqb name) names cols name s) as [_ H]; [|exact H].
    rewrite Hcol. now left. }
  apply in_columns_In in Hin. rewrite Hin.
  rewrite replace_cols_same; [reflexivity|].
  intros n c H. rewrite Hcol in H. destruct H as [H|[]]. now inversion H.
Qed.

Lemma str_app_inv_tail a b s : a +:+ s = b +:+ s -> a = b.
Proof.
  revert b. induction a as [|x a IH]; intros [|y b] H.
  - reflexivity.
  - apply (f_equal String.length) in H. rewrite str_app_nil_l, str_app_cons in H.
    cbn [String.length] in H. rewrite str_length_app in H. lia.
  - apply (f_equal String.length) in H. rewrite str_app_nil_l, str_app_cons in H.
    cbn [String.length] in H. rewrite str_length_app in H. lia.
  - rewrite !str_app_cons in H. inversion H; subst. f_equal. now apply IH.
Qed.

Lemma year_name_inj a b : a +:+ "_YEAR" = b +:+ "_YEAR" -> a = b.
Proof. apply str_app_inv_tail. Qed.

Lemma month_name_inj a b : a +:+ "_MONTH" = b +:+ "_MONTH" -> a = b.
Proof. apply str_app_inv_tail. Qed.

Lemma year_name_not_month a b : a +:+ "_YEAR" <> b +:+ "_MONTH".
Proof.
  intros H. apply (f_equal (fun s => endswith s "R")) in H.
  rewrite (endswith_app a "_YEAR" "R"), (endswith_app b "_MONTH" "R") in H
    by (vm_compute; lia).
  discriminate.
Qed.

(** One date column: its two parts are written, nothing else moves. *)
Lemma date_parts_of_table f c l :
  well_formed_table f -> col f c = [(c, SDatetime l)] ->
  exists f2, date_parts_of (LStr c) ["YEAR"; "MONTH"] f = Ok f2
    /\ well_formed_table f2
    /\ index f2 = index f
    /\ col f2 (c +:+ "_YEAR") = [(c +:+ "_YEAR", SInt (List.map ts_year l))]
    /\ col f2 (c +:+ "_MONTH") = [(c +:+ "_MONTH", SInt (List.map ts_month l))]
    /\ (forall n, n <> c +:+ "_YEAR" -> n <> c +:+ "_MONTH" -> col f2 n = col f n)
    /\ (~ In (c +:+ "_YEAR") (dates_of f) -> ~ In (c +:+ "_MONTH") (dates_of f) ->
        dates_of f2 = dates_of f).
Proof.
  intros Hwf Hc.
  pose proof (suffixed_name_differs c "_YEAR" ltac:(discriminate)) as HY.
  pose proof (suffixed_name_differs c "_MONTH" ltac:(discriminate)) as HM.
  pose proof (year_name_not_month c c) as HYM.
  destruct (setitem_table f (c +:+ "_YEAR") (SInt (List.map ts_year l)) Hwf)
    as (f1 & Hset1 & Hwf1 & Hix1 & Hy1 & Ho1).
  destruct (setitem_table f1 (c +:+ "_MONTH") (SInt (List.map ts_month l)) Hwf1)
    as (f2 & Hset2 & Hwf2 & Hix2 & Hm2 & Ho2).
  assert (col f1 c = [(c, SDatetime l)]) as Hc1 by (rewrite Ho1 by congruence; exact Hc).
  exists f2. split.
  { cbn [date_parts_of String.eqb Ascii.eqb Bool.eqb format_label].
    rewrite (getitem_str_col f c _ Hwf Hc). cbn [rbind dt_year].
    change (c +:+ "_" +:+ "YEAR") with (c +:+ "_YEAR"). rewrite Hset1. cbn [rbind].
    rewrite (getitem_str_col f1 c _ Hwf1 Hc1). cbn [rbind dt_month].
    change (c +:+ "_" +:+ "MONTH") with (c +:+ "_MONTH"). rewrite Hset2. reflexivity. }
  split; [assumption|]. split; [congruence|].
  split; [rewrite Ho2 by congruence; exact Hy1|].
  split; [exact Hm2|].
  split.
  - intros n H1 H2. now rewrite Ho2, Ho1.
  - intros H1 H2.
    rewrite (setitem_dates_of f1 _ _ f2 Hwf1 Hset2 eq_refl).
    + now apply (setitem_dates_of f _ _ f1 Hwf Hset1 eq_refl).
    + now rewrite (setitem_dates_of f _ _ f1 Hwf Hset1 eq_refl).
Qed.

Lemma label_in_names n D :
  existsb (fun k => label_matches_flat k n) (List.map LStr D) = true <-> In n D.
Proof.
  rewrite List.existsb_exists. split.
  - intros [k [Hin Hk]]. apply List.in_map_iff in Hin as [c [<- Hc]].
    cbn in Hk. apply String.eqb_eq in Hk. now subst.
  - intros H. exists (LStr n). split; [now apply List.in_map | apply String.eqb_refl].
Qed.

Lemma select_NoDup (q : string -> bool) names cols :
  NoDup names -> NoDup (List.map fst (select q names cols)).
Proof.
  intros Hnd. revert cols. induction Hnd as [|n names Hn Hnd IH]; intros [|c cols];
    cbn [select List.map]; try constructor.
  destruct (q n); cbn [List.map fst]; [|apply IH]. constructor; [|apply IH].
  rewrite list_elem_of_In in *. intros Hx. apply Hn.
  apply List.in_map_iff in Hx as [[n' s'] [Heq Hx]]. cbn in Heq. subst n'.
  now destruct (select_sound _ _ _ _ _ Hx).
Qed.

Lemma date_names_kept (q : string -> bool) names cols :
  date_names (List.map fst (select q names cols)) (List.map snd (select q names cols))
  = List.filter q (date_names names cols).
Proof.
  revert cols. induction names as [|n names IH]; intros [|c cols]; try reflexivity.
  cbn [select date_names]. destruct (q n) eqn:Hq; cbn [List.map fst snd date_names];
    destruct (is_datetime c); cbn [List.filter]; rewrite ?Hq, IH; reflexivity.
Qed.

Lemma filter_none {A} (q : A -> bool) l :
  (forall x, In x l -> q x = false) -> List.filter q l = [].
Proof.
  induction l as [|x l IH]; intros H; [reflexivity|].
  cbn [List.filter]. rewrite (H x) by now left. apply IH. intros y Hy. apply H. now right.
Qed.

(** [df.drop(D, axis=1)] on a table that has every column of [D]. *)
Lemma drop_table_list df D :
  well_formed_table df -> (forall c, In c D -> col df c <> []) ->
  exists df', drop_columns df (List.map LStr D) = Ok df'
    /\ well_formed_table df'
    /\ index df' = index df
    /\ (forall c, In c D -> col df' c = [])
    /\ (forall n, ~ In n D -> col df' n = col df n)
    /\ ((forall c, In c (dates_of df) -> In c D) -> dates_of df' = []).
Proof.
  unfold well_formed_table. destruct (columns df) as [names|] eqn:Hc; [|contradiction].
  intros [Hnd Hlen] Hd. unfold drop_columns. rewrite Hc.
  assert (forallb (fun k => existsb (label_matches_flat k) names) (List.map LStr D) = true)
    as ->.
  { apply List.forallb_forall. intros k Hk. apply List.in_map_iff in Hk as [c [<- Hin]].
    change (label_matches_flat (LStr c)) with (String.eqb c).
    specialize (Hd c Hin). unfold col in Hd. rewrite Hc in Hd. cbn [flat_names] in Hd.
    destruct (select (String.eqb c) names (data df)) as [|[n s] rest] eqn:Hs; [congruence|].
    destruct (select_sound (String.eqb c) names (data df) n s) as [Heq Hn];
      [rewrite Hs; now left|].
    apply List.existsb_exists. eauto. }
  eexists. split; [reflexivity|]. cbn [columns data index].
  split; [split; [apply select_NoDup, Hnd | apply select_length]|].
  split; [reflexivity|].
  split; [|split].
  - intros c Hin. unfold col. cbn [columns flat_names data]. rewrite select_select.
    apply select_none. intros l _.
    destruct (String.eqb_spec c l) as [<-|?]; [|apply andb_false_r].
    apply (label_in_names c D) in Hin. now rewrite Hin.
  - intros n Hn. unfold col. cbn [columns flat_names data]. rewrite Hc.
    cbn [flat_names]. rewrite select_select. apply select_ext. intros l _.
    destruct (String.eqb_spec n l) as [<-|?]; [|apply andb_false_r].
    destruct (existsb _ (List.map LStr D)) eqn:He; [|reflexivity].
    apply label_in_names in He. contradiction.
  - intros Hall. unfold dates_of in *. rewrite Hc in Hall.
    cbn [columns flat_names data] in *. rewrite date_names_kept. apply filter_none.
    intros x Hx. specialize (Hall x Hx). apply (label_in_names x D) in Hall.
    now rewrite Hall.
Qed.

(** The loop over the date columns, when no derived name is itself a date
    column still to be treated or a date column of the table. *)
Lemma date_parts_loop_table todo :
  forall f,
    well_formed_table f -> NoDup todo ->
    (forall c, In c todo -> exists l, col f c = [(c, SDatetime l)]) ->
    (forall c, In c todo ->
       ~ In (c +:+ "_YEAR") todo /\ ~ In (c +:+ "_MONTH") todo /\
       ~ In (c +:+ "_YEAR") (dates_of f) /\ ~ In (c +:+ "_MONTH") (dates_of f)) ->
    exists f', date_parts_loop (List.map LStr todo) f = Ok f'
      /\ well_formed_table f'
      /\ index f' = index f
      /\ dates_of f' = dates_of f
      /\ (forall c l, In c todo -> col f c = [(c, SDatetime l)] ->
            col f' (c +:+ "_YEAR") = [(c +:+ "_YEAR", SInt (List.map ts_year l))]
            /\ col f' (c +:+ "_MONTH") = [(c +:+ "_MONTH", SInt (List.map ts_month l))])
      /\ (forall n, (forall c, In c todo -> n <> c +:+ "_YEAR" /\ n <> c +:+ "_MONTH") ->
            col f' n = col f n).
Proof.
  induction todo as [|c todo IH]; intros f Hwf Hnd Hcols Hclash.
  - exists f. repeat split; try assumption; try reflexivity; contradiction.
  - apply NoDup_cons in Hnd as [Hc Hnd]. rewrite list_elem_of_In in Hc.
    destruct (Hcols c (or_introl eq_refl)) as [l Hl].
    destruct (Hclash c (or_introl eq_refl)) as (HY & HM & HYd & HMd).
    destruct (date_parts_of_table f c l Hwf Hl)
      as (f2 & Hstep & Hwf2 & Hix2 & Hy2 & Hm2 & Ho2 & Hd2).
    specialize (Hd2 HYd HMd).
    assert (forall c', In c' todo -> col f2 c' = col f c') as Hkeep.
    { intros c' Hin. apply Ho2; intros ->; [apply HY | apply HM]; now right. }
    destruct (IH f2 Hwf2 Hnd) as (f' & Hloop & Hwf' & Hix' & Hd' & Hparts & Ho').
    { intros c' Hin. rewrite (Hkeep c' Hin). apply Hcols. now right. }
    { intros c' Hin. rewrite Hd2.
      destruct (Hclash c' (or_intror Hin)) as (H1 & H2 & H3 & H4).
      repeat split; try assumption; intros H; [apply H1 | apply H2]; now right. }
    exists f'. split.
    { cbn [List.map date_parts_loop]. rewrite Hstep. cbn [rbind]. exact Hloop. }
    split; [assumption|]. split; [congruence|]. split; [congruence|].
    split.
    + intros c' l' [<-|Hin] Hl'.
      * assert (l' = l) as -> by congruence.
        rewrite !Ho'; [auto| |].
        -- intros c' Hin. split; [apply not_eq_sym, year_name_not_month|].
           intros H. apply month_name_inj in H. congruence.
        -- intros c' Hin. split; [|apply year_name_not_month].
           intros H. apply year_name_inj in H. congruence.
      * apply Hparts; [assumption|]. now rewrite (Hkeep c' Hin).
    + intros n Hn. rewrite Ho'.
      * destruct (Hn c (or_introl eq_refl)). now apply Ho2.
      * intros c' Hin. apply Hn. now right.
Qed.

(** The same loop on a table that already holds the parts of every date
    column changes nothing. *)
Lemma date_parts_loop_fixed todo f :
  well_formed_table f ->
  (forall c, In c todo -> exists l,
     col f c = [(c, SDatetime l)]
     /\ col f (c +:+ "_YEAR") = [(c +:+ "_YEAR", SInt (List.map ts_year l))]
     /\ col f (c +:+ "_MONTH") = [(c +:+ "_MONTH", SInt (List.map ts_month l))]) ->
  date_parts_loop (List.map LStr todo) f = Ok f.
Proof.
  intros Hwf. induction todo as [|c todo IH]; intros H; [reflexivity|].
  destruct (H c (or_introl eq_refl)) as (l & Hl & Hy & Hm).
  cbn [List.map date_parts_loop date_parts_of String.eqb Ascii.eqb Bool.eqb format_label].
  rewrite (getitem_str_col f c _ Hwf Hl). cbn [rbind dt_year dt_month].
  change (c +:+ "_" +:+ "YEAR") with (c +:+ "_YEAR").
  rewrite (setitem_same f _ _ Hwf Hy). cbn [rbind].
  rewrite (getitem_str_col f c _ Hwf Hl). cbn [rbind dt_year dt_month].
  change (c +:+ "_" +:+ "MONTH") with (c +:+ "_MONTH").
  rewrite (setitem_same f _ _ Hwf Hm). cbn [rbind].
  apply IH. intros c' Hin. apply H. now right.
Qed.

Lemma getitem_str_same t df n :
  well_formed_table t -> well_formed_table df ->
  col t n = col df n -> index t = index df ->
  getitem_str t n = getitem_str df n.
Proof.
  unfold well_formed_table, col, getitem_str. intros Ht Hdf Hcol Hix. rewrite Hix.
  destruct (columns t); [|contradiction]. destruct (columns df); [|contradiction].
  cbn [flat_names] in Hcol. now rewrite Hcol.
Qed.

(** What [create_date_parts] makes of a table none of whose derived names
    is the name of a date column, in terms of the columns each name
    designates. *)
Lemma create_date_parts_table df :
  well_formed_table df ->
  (forall c, In c (dates_of df) ->
     ~ In (c +:+ "_YEAR") (dates_of df) /\ ~ In (c +:+ "_MONTH") (dates_of df)) ->
  exists f_keep f_drop,
    create_date_parts df false = Ok f_keep
    /\ create_date_parts df true = Ok f_drop
    /\ drop_columns f_keep (List.map LStr (dates_of df)) = Ok f_drop
    /\ well_formed_table f_keep /\ well_formed_table f_drop
    /\ index f_keep = index df /\ index f_drop = index df
    /\ dates_of f_keep = dates_of df /\ dates_of f_drop = []
    /\ (forall c l, In c (dates_of df) -> col df c = [(c, SDatetime l)] ->
          col f_keep c = [(c, SDatetime l)]
          /\ col f_keep (c +:+ "_YEAR") = [(c +:+ "_YEAR", SInt (List.map ts_year l))]
          /\ col f_keep (c +:+ "_MONTH") = [(c +:+ "_MONTH", SInt (List.map ts_month l))]
          /\ col f_drop c = []
          /\ col f_drop (c +:+ "_YEAR") = [(c +:+ "_YEAR", SInt (List.map ts_year l))]
          /\ col f_drop (c +:+ "_MONTH") = [(c +:+ "_MONTH", SInt (List.map ts_month l))])
    /\ (forall n, (forall c, In c (dates_of df) -> n <> c +:+ "_YEAR" /\ n <> c +:+ "_MONTH") ->
          col f_keep n = col df n)
    /\ (forall n, ~ In n (dates_of df) -> col f_drop n = col f_keep n).
Proof.
  intros Hwf Hclash.
  destruct (date_parts_loop_table (dates_of df) df Hwf (dates_of_NoDup df Hwf))
    as (f1 & Hloop & Hwf1 & Hix1 & Hd1 & Hparts & Ho1).
  { intros c Hc. now apply dates_of_col. }
  { intros c Hc. destruct (Hclash c Hc). auto. }
  assert (forall c, In c (dates_of df) -> col f1 c = col df c) as Hkeep.
  { intros c Hc. apply Ho1. intros c' Hc'. destruct (Hclash c' Hc').
    split; intros ->; contradiction. }
  destruct (drop_table_list f1 (dates_of df) Hwf1)
    as (f3 & Hdrop & Hwf3 & Hix3 & Hgone & Ho3 & Hd3).
  { intros c Hc. rewrite (Hkeep c Hc).
    destruct (dates_of_col df c Hwf Hc) as [l ->]. discriminate. }
  exists f1, f3.
  assert (create_date_parts df false = Ok f1) as Hfalse.
  { unfold create_date_parts. rewrite (datetime_labels_table df Hwf), Hloop. reflexivity. }
  assert (create_date_parts df true = Ok f3) as Htrue.
  { unfold create_date_parts. rewrite (datetime_labels_table df Hwf), Hloop. exact Hdrop. }
  repeat (split; [first [assumption | congruence]|]).
  split; [apply Hd3; intros c Hc; congruence|].
  split; [|split; [assumption|assumption]].
  intros c l Hc Hl. destruct (Hparts c l Hc Hl) as [Hy Hm].
  destruct (Hclash c Hc) as [HY HM].
  split; [rewrite (Hkeep c Hc); exact Hl|].
  split; [exact Hy|]. split; [exact Hm|].
  split; [now apply Hgone|].
  split; rewrite Ho3; assumption.
Qed.

(** X9.  On a table with any number of date columns, none of which has
    the name of a derived column ([c_YEAR] or [c_MONTH] for a date column
    [c]), the derivation succeeds with and without dropping.  Every date
    column [c] gets the integer columns [c_YEAR] and [c_MONTH] holding its
    years and months; [c] is unchanged when kept and absent when dropped;
    every column that is neither a date column nor a derived name is what
    it was; and after dropping no date column is left. *)
Theorem date_parts_every_column (df : DataFrame) :
  well_formed_table df ->
  (forall c, In c (dates_of df) ->
     ~ In (c +:+ "_YEAR") (dates_of df) /\ ~ In (c +:+ "_MONTH") (dates_of df)) ->
  exists f_keep f_drop,
    create_date_parts df false = Ok f_keep
    /\ create_date_parts df true = Ok f_drop
    /\ (forall c, In c (dates_of df) ->
          exists dates,
            getitem_str df c = Ok (ObjSeries (SDatetime dates))
            /\ getitem_str f_keep c = Ok (ObjSeries (SDatetime dates))
            /\ getitem_str f_drop c = Raise KeyError
            /\ forall t, t = f_keep \/ t = f_drop ->
                 getitem_str t (c +:+ "_YEAR")
                 = Ok (ObjSeries (SInt (List.map ts_year dates)))
                 /\ getitem_str t (c +:+ "_MONTH")
                    = Ok (ObjSeries (SInt (List.map ts_month dates))))
    /\ (forall n, ~ In n (dates_of df) ->
          (forall c, In c (dates_of df) -> n <> c +:+ "_YEAR" /\ n <> c +:+ "_MONTH") ->
          getitem_str f_keep n = getitem_str df n
          /\ getitem_str f_drop n = getitem_str df n)
    /\ dates_of f_keep = dates_of df
    /\ dates_of f_drop = [].
Proof.
  intros Hwf Hclash.
  destruct (create_date_parts_table df Hwf Hclash)
    as (f1 & f3 & Hfalse & Htrue & _ & Hwf1 & Hwf3 & Hix1 & Hix3 & Hd1 & Hd3
        & Hdate & Ho1 & Ho3).
  exists f1, f3. repeat (split; [assumption|]). split; [|split; [|split; assumption]].
  - intros c Hc. destruct (dates_of_col df c Hwf Hc) as [l Hl]. exists l.
    destruct (Hdate c l Hc Hl) as (H1 & H2 & H3 & H4 & H5 & H6).
    split; [now apply getitem_str_col|].
    split; [now apply getitem_str_col|].
    split; [now apply getitem_str_absent|].
    intros t [->| ->]; split; now apply getitem_str_col.
  - intros n Hn Hder. split.
    + apply getitem_str_same; auto.
    + apply getitem_str_same; auto. rewrite Ho3 by assumption. auto.
Qed.

Lemma two_dates_no_clash c :
  In c (dates_of two_dates) ->
  ~ In (c +:+ "_YEAR") (dates_of two_dates) /\ ~ In (c +:+ "_MONTH") (dates_of two_dates).
Proof.
  intros [<-|[<-|[]]]; split; intros [H|[H|[]]]; discriminate.
Defined.

Lemma two_dates_table : well_formed_table two_dates.
Proof.
  split; [|reflexivity]. apply (bool_decide_unpack _). vm_compute. exact I.
Defined.

Lemma date_parts_every_column_witness :
  exists f_keep f_drop,
    create_date_parts two_dates false = Ok f_keep
    /\ create_date_parts two_dates true = Ok f_drop
    /\ dates_of f_keep = dates_of two_dates
    /\ dates_of f_drop = [].
Proof.
  destruct (date_parts_every_column two_dates two_dates_table two_dates_no_clash)
    as (f1 & f3 & H1 & H2 & _ & _ & H3 & H4).
  exists f1, f3. auto.
Defined.

Lemma select_all {L} (labels : list L) cols :
  length cols = length labels ->
  List.map fst (select (fun _ => true) labels cols) = labels
  /\ List.map snd (select (fun _ => true) labels cols) = cols.
Proof.
  revert cols. induction labels as [|l labels IH]; intros [|c cols] Hlen;
    cbn in Hlen; try discriminate; [split; reflexivity|].
  cbn [select List.map fst snd]. destruct (IH cols ltac:(lia)) as [-> ->]. auto.
Qed.

(** Dropping no column gives the frame back. *)
Lemma drop_columns_nil df :
  length (data df) = length (columns_list (columns df)) ->
  drop_columns df [] = Ok df.
Proof.
  destruct df as [ix c cols]. cbn [columns data]. unfold drop_columns.
  cbn [columns data index forallb existsb negb].
  destruct c as [names|tuples]; cbn [columns_list]; rewrite length_map; intros Hlen;
    destruct (select_all _ cols Hlen) as [-> ->]; reflexivity.
Qed.

(** X10.  Under the same condition the derivation is stable: run again on
    its own result it changes nothing, whether the first run kept the date
    columns or dropped them; and dropping after a run that kept them gives
    what dropping at once gives. *)
Theorem date_parts_twice (df f_keep f_drop : DataFrame) :
  well_formed_table df ->
  (forall c, In c (dates_of df) ->
     ~ In (c +:+ "_YEAR") (dates_of df) /\ ~ In (c +:+ "_MONTH") (dates_of df)) ->
  create_date_parts df false = Ok f_keep ->
  create_date_parts df true = Ok f_drop ->
  create_date_parts f_keep false = Ok f_keep
  /\ create_date_parts f_keep true = Ok f_drop
  /\ create_date_parts f_drop false = Ok f_drop
  /\ create_date_parts f_drop true = Ok f_drop.
Proof.
  intros Hwf Hclash Hk Hd.
  destruct (create_date_parts_table df Hwf Hclash)
    as (f1 & f3 & Hfalse & Htrue & Hdrop & Hwf1 & Hwf3 & Hix1 & Hix3 & Hd1 & Hd3
        & Hdate & Ho1 & Ho3).
  assert (f1 = f_keep) as -> by congruence.
  assert (f3 = f_drop) as -> by congruence.
  assert (date_parts_loop (List.map LStr (dates_of df)) f_keep = Ok f_keep) as Hfix.
  { apply date_parts_loop_fixed; [assumption|]. intros c Hc.
    destruct (dates_of_col df c Hwf Hc) as [l Hl]. exists l.
    destruct (Hdate c l Hc Hl) as (H1 & H2 & H3 & _). auto. }
  assert (drop_columns f_drop [] = Ok f_drop) as Hnil.
  { apply drop_columns_nil. unfold well_formed_table in Hwf3.
    destruct (columns f_drop); [|contradiction]. cbn. now rewrite length_map. }
  unfold create_date_parts.
  rewrite (datetime_labels_table f_keep Hwf1), (datetime_labels_table f_drop Hwf3).
  rewrite Hd1, Hd3, Hfix. cbn [List.map date_parts_loop rbind]. auto.
Qed.

Lemma date_parts_twice_witness :
  exists f_keep f_drop,
    create_date_parts two_dates false = Ok f_keep
    /\ create_date_parts f_keep true = Ok f_drop
    /\ create_date_parts f_drop true = Ok f_drop.
Proof.
  destruct (create_date_parts two_dates false) as [f1|] eqn:H1; [|discriminate].
  destruct (create_date_parts two_dates true) as [f3|] eqn:H3; [|discriminate].
  destruct (date_parts_twice two_dates f1 f3 two_dates_table two_dates_no_clash H1 H3)
    as (_ & Ha & _ & Hb).
  exists f1, f3. auto.
Defined.

(** X11.  A frame without date columns comes back as it is, with and
    without dropping (for the dropping, the frame has one series per
    column label, as every frame does). *)
Theorem date_parts_without_dates (df : DataFrame) :
  datetime_labels (columns_list (columns df)) (data df) = [] ->
  create_date_parts df false = Ok df
  /\ (length (data df) = length (columns_list (columns df)) ->
      create_date_parts df true = Ok df).
Proof.
  intros Hnone. unfold create_date_parts. rewrite Hnone. cbn [date_parts_loop rbind].
  split; [reflexivity|]. apply drop_columns_nil.
Qed.

Lemma date_parts_without_dates_witness :
  create_date_parts sample false = Ok sample /\ create_date_parts sample true = Ok sample.
Proof.
  destruct (date_parts_without_dates sample eq_refl) as [H1 H2].
  split; [exact H1 | exact (H2 eq_refl)].
Defined.

(** X12.  When a table has exactly two date columns, [d] and then a
    column named like a part of it ([d_YEAR] or [d_MONTH]), the derivation
    fails with an attribute error, with and without dropping: the parts of
    [d] overwrite the second date column with integers before its own
    parts are taken. *)
Theorem date_parts_name_clash (df : DataFrame) (d suffix : string) :
  well_formed_table df ->
  suffix = "_YEAR" \/ suffix = "_MONTH" ->
  dates_of df = [d; d +:+ suffix] ->
  forall drop_date_cols, create_date_parts df drop_date_cols = Raise AttributeError.
Proof.
  intros Hwf Hs Hd b. unfold create_date_parts.
  rewrite (datetime_labels_table df Hwf), Hd.
  destruct (dates_of_col df d Hwf) as [l Hl]; [rewrite Hd; now left|].
  destruct (date_parts_of_table df d l Hwf Hl)
    as (f2 & Hstep & Hwf2 & _ & Hy & Hm & _ & _).
  cbn [List.map date_parts_loop]. rewrite Hstep. cbn [rbind].
  assert (exists ints, col f2 (d +:+ suffix) = [(d +:+ suffix, SInt ints)]) as [ints Hi]
    by (destruct Hs as [->| ->]; eauto).
  cbn [date_parts_of String.eqb Ascii.eqb Bool.eqb format_label].
  rewrite (getitem_str_col f2 _ _ Hwf2 Hi). reflexivity.
Qed.

Lemma date_parts_name_clash_witness :
  create_date_parts
    (mkDataFrame (RangeIndex 1) (Index ["d"; "d_YEAR"])
       [SDatetime [mkTimestamp 2018 2 1]; SDatetime [mkTimestamp 2017 12 31]]) true
  = Raise AttributeError.
Proof.
  apply (date_parts_name_clash _ "d" "_YEAR").
  - split; [|reflexivity]. apply (bool_decide_unpack _). vm_compute. exact I.
  - left. reflexivity.
  - reflexivity.
Defined.

(** ** DateEnricher: handle_date_cols *)

Lemma getitem_str_missing df k :
  in_columns k (columns df) = false -> getitem_str df k = Raise KeyError.
Proof.
  intros Hk. pose proof (column_1d_missing df k Hk) as H. unfold column_1d in H.
  destruct (getitem_str df k) as [[]|e]; congruence.
Qed.

Lemma setitem_columns df name s df' :
  in_columns name (columns df) = true -> setitem df name s = Ok df' ->
  columns df' = columns df.
Proof.
  unfold setitem. destruct (columns df) as [names|]; [|discriminate].
  intros ->. intros H. now inversion H.
Qed.

Lemma convert_date_cols_missing parse date_cols :
  forall df d,
    In d date_cols -> in_columns d (columns df) = false ->
    exists e, convert_date_cols parse date_cols df = Raise e.
Proof.
  induction date_cols as [|d0 rest IH]; intros df d Hin Hd; [contradiction|].
  cbn [convert_date_cols].
  destruct (in_columns d0 (columns df)) eqn:Hd0.
  - destruct (getitem_str df d0) as [o|e]; cbn [rbind]; [|eauto].
    destruct (parse o) as [s|e]; cbn [rbind]; [|eauto].
    destruct (setitem df d0 s) as [df'|e] eqn:Hs; cbn [rbind]; [|eauto].
    destruct Hin as [->|Hin]; [congruence|].
    apply (IH df' d Hin). now rewrite (setitem_columns df d0 s df' Hd0 Hs).
  - rewrite (getitem_str_missing df d0 Hd0). cbn [rbind]. eauto.
Qed.

(** X13.  When one of the listed columns is no column of the frame,
    [handle_date_cols] returns no table: it fails, whatever the parser
    makes of the other columns and whatever the other arguments are; and
    when the missing column is listed first, it fails with a key error
    before anything is parsed. *)
Theorem handle_date_cols_missing_column
    (pd_to_datetime : PdObj -> result Series) (df : DataFrame)
    (date_cols : list string) (add_date_parts : bool) (kwargs : gmap string pyval)
    (d : string) :
  In d date_cols -> in_columns d (columns df) = false ->
  (exists e, handle_date_cols pd_to_datetime df date_cols add_date_parts kwargs = Raise e)
  /\ (forall rest, date_cols = d :: rest ->
        handle_date_cols pd_to_datetime df date_cols add_date_parts kwargs
        = Raise KeyError).
Proof.
  intros Hin Hd. split.
  - destruct (convert_date_cols_missing pd_to_datetime date_cols df d Hin Hd) as [e He].
    exists e. unfold handle_date_cols. now rewrite He.
  - intros rest ->. unfold handle_date_cols. cbn [convert_date_cols].
    now rewrite (getitem_str_missing df d Hd).
Qed.

Lemma handle_date_cols_missing_column_witness :
  handle_date_cols (fun _ => Ok (SDatetime [])) sample ["when"; "g"] true ∅
  = Raise KeyError.
Proof.
  refine (proj2 (handle_date_cols_missing_column (fun _ => Ok (SDatetime [])) sample
                   ["when"; "g"] true ∅ "when" _ _) ["g"] eq_refl).
  - simpl. auto.
  - reflexivity.
Defined.

Lemma create_date_parts_kwargs_empty df :
  create_date_parts_kwargs df ∅ = create_date_parts df true.
Proof.
  unfold create_date_parts_kwargs. rewrite delete_empty, lookup_empty.
  now rewrite decide_True.
Qed.

Lemma create_date_parts_kwargs_drop df v :
  create_date_parts_kwargs df {["drop_date_cols" := v]} = create_date_parts df (truthy v).
Proof.
  unfold create_date_parts_kwargs. rewrite delete_singleton_eq, lookup_singleton_eq.
  now rewrite decide_True.
Qed.

Lemma create_date_parts_kwargs_unknown df (kwargs : gmap string pyval) k v :
  k <> "drop_date_cols" -> kwargs !! k = Some v ->
  create_date_parts_kwargs df kwargs = Raise TypeError.
Proof.
  intros Hk Hv. unfold create_date_parts_kwargs. rewrite decide_False; [reflexivity|].
  intros Heq. apply (f_equal (fun m => m !! k)) in Heq.
  rewrite lookup_delete_ne, lookup_empty in Heq by congruence. congruence.
Qed.

(** X14.  The keywords of [handle_date_cols] go to [create_date_parts]
    and nowhere else.  With [add_date_parts] off they are not looked at.
    With it on, no keyword means dropping the date columns, a
    [drop_date_cols] keyword is taken by its truth value, and any other
    keyword makes the call fail: with a type error as soon as the listed
    columns were converted. *)
Theorem handle_date_cols_keywords
    (pd_to_datetime : PdObj -> result Series) (df : DataFrame) (date_cols : list string) :
  (forall kwargs, handle_date_cols pd_to_datetime df date_cols false kwargs
                  = convert_date_cols pd_to_datetime date_cols df)
  /\ handle_date_cols pd_to_datetime df date_cols true ∅
     = (converted <- convert_date_cols pd_to_datetime date_cols df ;;
        create_date_parts converted true)%py
  /\ (forall v, handle_date_cols pd_to_datetime df date_cols true {["drop_date_cols" := v]}
                = (converted <- convert_date_cols pd_to_datetime date_cols df ;;
                   create_date_parts converted (truthy v))%py)
  /\ (forall (kwargs : gmap string pyval) k v,
        k <> "drop_date_cols" -> kwargs !! k = Some v ->
        (forall t, handle_date_cols pd_to_datetime df date_cols true kwargs <> Ok t)
        /\ (forall converted,
              convert_date_cols pd_to_datetime date_cols df = Ok converted ->
              handle_date_cols pd_to_datetime df date_cols true kwargs = Raise TypeError)).
Proof.
  split; [|split; [|split]].
  - intros kwargs. unfold handle_date_cols.
    now destruct (convert_date_cols pd_to_datetime date_cols df).
  - unfold handle_date_cols.
    destruct (convert_date_cols pd_to_datetime date_cols df); cbn [rbind]; [|reflexivity].
    apply create_date_parts_kwargs_empty.
  - intros v. unfold handle_date_cols.
    destruct (convert_date_cols pd_to_datetime date_cols df); cbn [rbind]; [|reflexivity].
    apply create_date_parts_kwargs_drop.
  - intros kwargs k v Hk Hv. unfold handle_date_cols.
    destruct (convert_date_cols pd_to_datetime date_cols df) as [c|e]; cbn [rbind].
    + rewrite (create_date_parts_kwargs_unknown c kwargs k v Hk Hv).
      split; [discriminate | reflexivity].
    + split; [discriminate | discriminate].
Qed.

Lemma handle_date_cols_keywords_witness :
  handle_date_cols (fun _ => Ok (SDatetime [mkTimestamp 2018 2 1; mkTimestamp 2017 12 31]))
                   sample_dates ["d"] true {["drop_dates" := PyBool false]}
  = Raise TypeError.
Proof.
  refine (proj2 (proj2 (proj2 (proj2
            (handle_date_cols_keywords
               (fun _ => Ok (SDatetime [mkTimestamp 2018 2 1; mkTimestamp 2017 12 31]))
               sample_dates ["d"]))) {["drop_dates" := PyBool false]} "drop_dates"
            (PyBool false) _ _) sample_dates _).
  - discriminate.
  - reflexivity.
  - reflexivity.
Defined.

Lemma date_names_replace_first d s names cols :
  NoDup names -> is_datetime s = true -> date_names names cols = [] ->
  select (String.eqb d) names cols <> [] ->
  date_names names (replace_cols d s names cols) = [d].
Proof.
  intros Hnd Hs. revert cols. induction Hnd as [|n names Hn Hnd IH]; intros [|c cols] Hnone Hsel;
    cbn [select] in Hsel; try congruence.
  rewrite list_elem_of_In in Hn. cbn [date_names replace_cols] in *.
  destruct (is_datetime c) eqn:Hc; [discriminate|].
  destruct (String.eqb_spec n d) as [->|Hne].
  - rewrite Hs. f_equal. rewrite replace_cols_same; [assumption|].
    intros n' c'. now rewrite (select_absent names cols d Hn).
  - rewrite Hc. apply IH; [assumption|].
    destruct (String.eqb_spec d n); [congruence | assumption].
Qed.

Lemma getitem_str_col_inv df d s :
  well_formed_table df -> getitem_str df d = Ok (ObjSeries s) -> col df d = [(d, s)].
Proof.
  unfold well_formed_table, col, getitem_str.
  destruct (columns df) as [names|]; [|contradiction]. cbn [flat_names].
  intros [Hnd _].
  destruct (select_unique names (data df) d Hnd) as [->|[s' ->]]; [discriminate|].
  intros H. now inversion H.
Qed.

(** X15.  On a table without date columns, converting one column [d]
    whose values the parser turns into dates gives, by default, the table
    with [d] replaced by the integer columns [d_YEAR] and [d_MONTH] of the
    parsed dates; with [drop_date_cols=False] the parsed [d] stays beside
    them, and with [add_date_parts] off only [d] changes.  Every other
    column is the same in all three results. *)
Theorem handle_date_cols_one_column
    (pd_to_datetime : PdObj -> result Series) (df : DataFrame) (d : string)
    (raw : Series) (dates : list Timestamp) :
  well_formed_table df ->
  dates_of df = [] ->
  getitem_str df d = Ok (ObjSeries raw) ->
  pd_to_datetime (ObjSeries raw) = Ok (SDatetime dates) ->
  exists t_conv t_keep t_drop,
    handle_date_cols pd_to_datetime df [d] false ∅ = Ok t_conv
    /\ handle_date_cols pd_to_datetime df [d] true {["drop_date_cols" := PyBool false]}
       = Ok t_keep
    /\ handle_date_cols pd_to_datetime df [d] true ∅ = Ok t_drop
    /\ getitem_str t_conv d = Ok (ObjSeries (SDatetime dates))
    /\ getitem_str t_keep d = Ok (ObjSeries (SDatetime dates))
    /\ getitem_str t_drop d = Raise KeyError
    /\ (forall t, t = t_keep \/ t = t_drop ->
          getitem_str t (d +:+ "_YEAR") = Ok (ObjSeries (SInt (List.map ts_year dates)))
          /\ getitem_str t (d +:+ "_MONTH")
             = Ok (ObjSeries (SInt (List.map ts_month dates))))
    /\ (forall n, n <> d -> getitem_str t_conv n = getitem_str df n)
    /\ (forall t n, t = t_keep \/ t = t_drop ->
          n <> d -> n <> d +:+ "_YEAR" -> n <> d +:+ "_MONTH" ->
          getitem_str t n = getitem_str df n).
Proof.
  intros Hwf Hnone Hget Hparse.
  pose proof (getitem_str_col_inv df d raw Hwf Hget) as Hraw.
  destruct (setitem_table df d (SDatetime dates) Hwf)
    as (df1 & Hset & Hwf1 & Hix1 & Hd1 & Ho1).
  assert (convert_date_cols pd_to_datetime [d] df = Ok df1) as Hconv.
  { cbn [convert_date_cols]. rewrite Hget. cbn [rbind]. rewrite Hparse. cbn [rbind].
    now rewrite Hset. }
  assert (dates_of df1 = [d]) as Hdates.
  { clear Hconv Hd1 Ho1 Hwf1 Hix1. unfold well_formed_table in Hwf.
    unfold dates_of, col, setitem in *.
    destruct (columns df) as [names|] eqn:Hc; [|contradiction].
    destruct Hwf as [Hnd Hlen]. cbn [flat_names] in *.
    assert (In d names) as Hin.
    { destruct (select_sound (String.eqb d) names (data df) d raw) as [_ H]; [|exact H].
      rewrite Hraw. now left. }
    apply in_columns_In in Hin. rewrite Hin in Hset. inversion Hset; subst.
    cbn [columns data flat_names].
    apply date_names_replace_first; try assumption; [reflexivity|].
    rewrite Hraw. discriminate. }
  destruct (create_date_parts_table df1 Hwf1)
    as (f1 & f3 & Hfalse & Htrue & _ & Hwff1 & Hwff3 & Hixf1 & Hixf3 & _ & _
        & Hdate & Hof1 & Hof3).
  { rewrite Hdates. intros c [<-|[]].
    split; intros [H|[]]; symmetry in H;
      now apply suffixed_name_differs in H. }
  rewrite Hdates in *.
  destruct (Hdate d dates (or_introl eq_refl) Hd1) as (H1 & H2 & H3 & H4 & H5 & H6).
  exists df1, f1, f3.
  unfold handle_date_cols. rewrite Hconv. cbn [rbind].
  rewrite create_date_parts_kwargs_empty, create_date_parts_kwargs_drop. cbn [truthy].
  repeat (split; [first [assumption | reflexivity]|]).
  split; [now apply getitem_str_col|].
  split; [now apply getitem_str_col|].
  split; [now apply getitem_str_absent|].
  split; [intros t [->| ->]; split; now apply getitem_str_col|].
  split.
  - intros n Hn. apply getitem_str_same; auto.
  - assert (forall n, n <> d -> n <> d +:+ "_YEAR" -> n <> d +:+ "_MONTH" ->
                      col f1 n = col df n) as Hk.
    { intros n A B C. rewrite Hof1, Ho1; [reflexivity|assumption|].
      intros c [<-|[]]. auto. }
    intros t n [->| ->] A B C; apply getitem_str_same; auto; try congruence.
    rewrite Hof3; [now apply Hk|]. intros [H|[]]. congruence.
Qed.

Lemma handle_date_cols_one_column_witness :
  exists t_conv t_keep t_drop,
    handle_date_cols (fun _ => Ok (SDatetime [mkTimestamp 2018 2 1; mkTimestamp 2017 12 31]))
                     sample_strings ["d"] false ∅ = Ok t_conv
    /\ handle_date_cols (fun _ => Ok (SDatetime [mkTimestamp 2018 2 1; mkTimestamp 2017 12 31]))
                     sample_strings ["d"] true {["drop_date_cols" := PyBool false]}
       = Ok t_keep
    /\ handle_date_cols (fun _ => Ok (SDatetime [mkTimestamp 2018 2 1; mkTimestamp 2017 12 31]))
                     sample_strings ["d"] true ∅ = Ok t_drop
    /\ getitem_str t_drop "d_YEAR" = Ok (ObjSeries (SInt [2018; 2017]))
    /\ getitem_str t_drop "d" = Raise KeyError.
Proof.
  destruct (handle_date_cols_one_column
              (fun _ => Ok (SDatetime [mkTimestamp 2018 2 1; mkTimestamp 2017 12 31]))
              sample_strings "d" (SStr ["2018-02-01"; "2017-12-31"])
              [mkTimestamp 2018 2 1; mkTimestamp 2017 12 31])
    as (t1 & t2 & t3 & H1 & H2 & H3 & _ & _ & H6 & H7 & _).
  - split; [|reflexivity]. apply (bool_decide_unpack _). vm_compute. exact I.
  - reflexivity.
  - reflexivity.
  - reflexivity.
  - exists t1, t2, t3. repeat split; try assumption.
    exact (proj1 (H7 t3 (or_intror eq_refl))).
Defined.

(** ** Absolute names *)

Lemma path_join_absolute p s : p // String "/" s = PurePath (String "/" s).
Proof.
  unfold path_join, parse_root. cbn [leading_slashes Ascii.eqb Bool.eqb].
  now destruct (leading_slashes s) as [|[|n]].
Qed.

(** X16.  A file name that begins with a slash overrides the level: with
    any of the four levels, what is read is the file of that absolute name
    (with the file type appended), the same whatever directories the
    mapper holds. *)
Theorem load_data_absolute_file_name
    (pd_read_parquet pd_read_csv : PathArg -> result DataFrame)
    (self : DirectoryMapper) (name level file_type ext : string) :
  In level ["raw"; "interim"; "processed"; "external"] ->
  In (file_type, ext) stripped_file_types ->
  load_data pd_read_parquet pd_read_csv self ("/" +:+ name) (Some level) file_type
  = (if String.eqb ext "parquet" then pd_read_parquet else pd_read_csv)
      (AsPath (PurePath ("/" +:+ name +:+ "." +:+ ext))).
Proof.
  intros Hl Ht.
  assert (forall p, p // ("/" +:+ name +:+ "." +:+ ext)
                    = PurePath ("/" +:+ name +:+ "." +:+ ext)) as Hjoin.
  { intros p. change ("/" +:+ name +:+ "." +:+ ext) with (String "/" (name +:+ "." +:+ ext)).
    apply path_join_absolute. }
  cbn in Hl, Ht.
  destruct Hl as [<-|[<-|[<-|[<-|[]]]]];
    destruct Ht as [H|[H|[H|[H|[]]]]]; inversion H; subst;
    unfold load_data; cbn [rbind String.eqb Ascii.eqb Bool.eqb];
    change (("/" +:+ name) +:+ "." +:+ ?e) with ("/" +:+ name +:+ "." +:+ e);
    now rewrite Hjoin.
Qed.

Lemma load_data_absolute_file_name_witness :
  load_data (fun p => match p with
                      | AsPath q => if String.eqb (path_str q) "/tmp/x.parquet"
                                    then Ok sample else Raise KeyError
                      | AsStr _ => Raise KeyError
                      end)
            (fun _ => Raise KeyError)
            (DirectoryMapper_init "elo" default_base_dir) "/tmp/x" (Some "raw") "parquet"
  = Ok sample.
Proof.
  rewrite (load_data_absolute_file_name _ _ (DirectoryMapper_init "elo" default_base_dir)
             "tmp/x" "raw" "parquet" "parquet").
  - reflexivity.
  - simpl. auto.
  - simpl. auto.
Defined.

(** X17.  A project name that begins with a slash overrides the base
    directory: the directories of the mapper are the same for every base
    directory. *)
Theorem absolute_project_name_ignores_base (name : string) (base base' : Path) :
  mapped_dirs (DirectoryMapper_init ("/" +:+ name) base)
  = mapped_dirs (DirectoryMapper_init ("/" +:+ name) base')
  /\ project_dir (DirectoryMapper_init ("/" +:+ name) base) = PurePath ("/" +:+ name).
Proof.
  unfold mapped_dirs, DirectoryMapper_init.
  cbn [project_dir config_path sql_dir data_dir raw_data_dir interim_data_dir
       processed_data_dir external_data_dir model_dir output_dir output_data_dir
       output_figs_dir output_pred_dir].
  change ("/" +:+ name) with (String "/" name).
  rewrite !path_join_absolute. split; reflexivity.
Qed.

(** ** GroupByAndAggregate: where the grouping keys go *)










Lemma load_data_invalid_level_witness :
  load_data (fun _ => Ok sample) (fun _ => Ok sample)
            (DirectoryMapper_init "elo" default_base_dir) "train" (Some "Raw") "xlsx"
  = Raise (ValueError "Please provide valid level").
Proof.
  apply (load_data_invalid_level (fun _ => Ok sample) (fun _ => Ok sample)
           (DirectoryMapper_init "elo" default_base_dir) "train" "Raw" "x"%char "lsx").
  simpl. intros [H|[H|[H|[H|[]]]]]; discriminate.
Defined.
